(** * Banking dashboard API server: a shallow embedding and its properties

    The development follows [server/src/index.ts] (the Express routes over
    the SQLite store) and [server/src/middleware/transactionMiddleware.ts]
    ([validateCreateTransaction]).

    Numbers.  A JavaScript [number] is modelled by an exact rational, the
    two infinities or NaN; the rounding of binary64 arithmetic is outside
    the model.  [parseInt] yields NaN or an integer, kept as [option Z]. *)

From Stdlib Require Import ZArith QArith Qround String Ascii List Lia.
From Stdlib Require Import DecimalString DecimalZ Lqa.
From stdpp Require Import gmap strings list fin_maps sorting.

Local Open Scope Z_scope.

(** ** JavaScript values *)

Module Js.

Inductive Num : Type :=
| NaN
| NegInf
| Fin (q : Q)
| PosInf.

(** A scalar value of a parsed JSON body, or [undefined] for an absent
    property.  Arrays and objects as property values are not modelled. *)
Inductive Val : Type :=
| VUndefined
| VNull
| VBool (b : bool)
| VNum (n : Num)
| VStr (s : string).

Definition Qltb (x y : Q) : bool := negb (Qle_bool y x).

(** ToBoolean *)
Definition truthy (v : Val) : bool :=
  match v with
  | VUndefined | VNull => false
  | VBool b => b
  | VNum NaN => false
  | VNum (Fin q) => negb (Qeq_bool q 0)
  | VNum _ => true
  | VStr s => negb (String.eqb s "")
  end.

(** [x + y] on numbers *)
Definition add (x y : Num) : Num :=
  match x, y with
  | NaN, _ | _, NaN => NaN
  | PosInf, NegInf | NegInf, PosInf => NaN
  | PosInf, _ | _, PosInf => PosInf
  | NegInf, _ | _, NegInf => NegInf
  | Fin a, Fin b => Fin (a + b)
  end.

(** [x - y] on numbers *)
Definition sub (x y : Num) : Num :=
  match x, y with
  | NaN, _ | _, NaN => NaN
  | PosInf, PosInf | NegInf, NegInf => NaN
  | PosInf, _ | _, NegInf => PosInf
  | NegInf, _ | _, PosInf => NegInf
  | Fin a, Fin b => Fin (a - b)
  end.

(** [x < y] on numbers: false as soon as one side is NaN *)
Definition lt (x y : Num) : bool :=
  match x, y with
  | NaN, _ | _, NaN => false
  | _, NegInf => false
  | NegInf, _ => true
  | PosInf, _ => false
  | Fin _, PosInf => true
  | Fin a, Fin b => Qltb a b
  end.

(** [x <= y] on numbers: false as soon as one side is NaN *)
Definition le (x y : Num) : bool :=
  match x, y with
  | NaN, _ | _, NaN => false
  | NegInf, _ => true
  | _, PosInf => true
  | _, NegInf => false
  | PosInf, _ => false
  | Fin a, Fin b => Qle_bool a b
  end.

(** [v === "..."] against a string literal *)
Definition strict_eq_str (v : Val) (lit : string) : bool :=
  match v with
  | VStr s => String.eqb s lit
  | _ => false
  end.

Section ToNumber.

(** The StringToNumber operation of the language (applied by [Number]
    and by [<=] to a string operand) is not fixed here: every result
    below holds for any such function. *)
Variable StringToNumber : string -> Num.

(** [Number(v)] *)
Definition Number (v : Val) : Num :=
  match v with
  | VUndefined => NaN
  | VNull => Fin 0
  | VBool true => Fin 1
  | VBool false => Fin 0
  | VNum n => n
  | VStr s => StringToNumber s
  end.

End ToNumber.

(** *** parseInt *)

(** A string is the sequence of the bytes of its UTF-8 encoding.  The
    white space and line terminators of the language are those of one
    byte, TAB, LF, VT, FF, CR and SP ... *)
Definition is_white_space (c : ascii) : bool :=
  let n := N_of_ascii c in
  (N.leb 9 n && N.leb n 13) || N.eqb n 32.

(** ... U+00A0, written on two bytes, ... *)
Definition leads_white_space_2 (c1 : ascii) : bool := N.eqb (N_of_ascii c1) 194.

Definition is_white_space_2 (c1 c2 : ascii) : bool :=
  N.eqb (N_of_ascii c1) 194 && N.eqb (N_of_ascii c2) 160.

(** ... and, written on three bytes, U+1680, U+2000 to U+200A, U+2028,
    U+2029, U+202F, U+205F, U+3000 and U+FEFF. *)
Definition leads_white_space_3 (c1 : ascii) : bool :=
  let n := N_of_ascii c1 in
  N.eqb n 225 || N.eqb n 226 || N.eqb n 227 || N.eqb n 239.

Definition is_white_space_3 (c1 c2 c3 : ascii) : bool :=
  let n1 := N_of_ascii c1 in
  let n2 := N_of_ascii c2 in
  let n3 := N_of_ascii c3 in
  (N.eqb n1 225 && N.eqb n2 154 && N.eqb n3 128)
  || (N.eqb n1 226 && N.eqb n2 128
      && ((N.leb 128 n3 && N.leb n3 138) || N.eqb n3 168 || N.eqb n3 169
          || N.eqb n3 175))
  || (N.eqb n1 226 && N.eqb n2 129 && N.eqb n3 159)
  || (N.eqb n1 227 && N.eqb n2 128 && N.eqb n3 128)
  || (N.eqb n1 239 && N.eqb n2 187 && N.eqb n3 191).

Fixpoint trim_start (s : string) : string :=
  match s with
  | EmptyString => s
  | String c1 s1 =>
      if is_white_space c1 then trim_start s1
      else if leads_white_space_2 c1 then
        match s1 with
        | String c2 s2 => if is_white_space_2 c1 c2 then trim_start s2 else s
        | EmptyString => s
        end
      else if leads_white_space_3 c1 then
        match s1 with
        | String c2 (String c3 s3) =>
            if is_white_space_3 c1 c2 c3 then trim_start s3 else s
        | _ => s
        end
      else s
  end.

(** The value of a digit in radixes up to 36. *)
Definition digit_value (c : ascii) : option Z :=
  let n := Z.of_N (N_of_ascii c) in
  if (48 <=? n) && (n <=? 57) then Some (n - 48)
  else if (97 <=? n) && (n <=? 122) then Some (n - 97 + 10)
  else if (65 <=? n) && (n <=? 90) then Some (n - 65 + 10)
  else None.

(** The integer written by the longest prefix of radix-[R] digits,
    [acc] holding the digits read so far ([None]: none yet). *)
Fixpoint parse_digits (R : Z) (s : string) (acc : option Z) : option Z :=
  match s with
  | EmptyString => acc
  | String c s' =>
      match digit_value c with
      | Some d =>
          if d <? R
          then parse_digits R s' (Some (match acc with
                                        | Some a => a * R + d
                                        | None => d
                                        end))
          else acc
      | None => acc
      end
  end.

(** [parseInt(s)] with no radix argument; [None] is NaN. *)
Definition parseInt (s : string) : option Z :=
  let S0 := trim_start s in
  let '(sign, S1) :=
    match S0 with
    | String "-" r => (-1, r)
    | String "+" r => (1, r)
    | _ => (1, S0)
    end in
  let '(R, S2) :=
    match S1 with
    | String "0" (String "x" r) => (16, r)
    | String "0" (String "X" r) => (16, r)
    | _ => (10, S1)
    end in
  match parse_digits R S2 None with
  | Some n => Some (sign * n)
  | None => None
  end.

(** One [StringToNumber], with which the theorems are run on concrete
    requests: the empty string is 0 and a string of decimal digits is the
    integer it writes, as in the language; the other strings, which no
    request below carries, are all taken to NaN. *)
Fixpoint all_digits (s : string) : bool :=
  match s with
  | EmptyString => true
  | String c s' =>
      match digit_value c with
      | Some d => (d <? 10) && all_digits s'
      | None => false
      end
  end.

Definition digits_to_number (s : string) : Num :=
  if all_digits s then
    match parse_digits 10 s None with
    | Some n => Fin (inject_Z n)
    | None => Fin 0
    end
  else NaN.

(** [parseInt(q as string)] of a query parameter; an absent parameter
    is [undefined], read as the string "undefined". *)
Definition parseInt_param (q : option string) : option Z :=
  parseInt (match q with Some s => s | None => "undefined" end).

(** [n || d] for a number [n]: NaN and 0 are falsy. *)
Definition or_default (n : option Z) (d : Z) : Z :=
  match n with
  | Some z => if z =? 0 then d else z
  | None => d
  end.

(** [Math.ceil(a / b)] for integers [a] and [b]. *)
Definition ceil_div (a b : Z) : Z := Qceiling (inject_Z a / inject_Z b).

End Js.

(** ** The store: SQLite tables [accounts] and [transactions] *)

(** A value bound to a statement parameter by the driver: [undefined]
    and [null] as NULL, a boolean as 0 or 1, a number as itself (SQLite
    turns NaN into NULL), a string as text.  A row holds the values bound
    to its INSERT; what the affinity of a column then makes of a value of
    another type (a text amount, a numeric description) is not modelled. *)
Inductive SqlVal : Type :=
| SqlNull
| SqlNumber (n : Js.Num)
| SqlText (s : string).

Definition bind (v : Js.Val) : SqlVal :=
  match v with
  | Js.VUndefined | Js.VNull => SqlNull
  | Js.VBool b => SqlNumber (Js.Fin (if b then 1 else 0)%Q)
  | Js.VNum Js.NaN => SqlNull
  | Js.VNum n => SqlNumber n
  | Js.VStr s => SqlText s
  end.

(** The JavaScript value of a column of a fetched row. *)
Definition column (v : SqlVal) : Js.Val :=
  match v with
  | SqlNull => Js.VNull
  | SqlNumber n => Js.VNum n
  | SqlText s => Js.VStr s
  end.

Record Account : Type := {
  id : string;
  accountNumber : string;
  accountType : string;
  balance : SqlVal;
  accountHolder : string;
  createdAt : string;
}.

Record TransactionRow : Type := {
  tx_id : Z;
  tx_type : SqlVal;
  tx_amount : SqlVal;
  tx_description : SqlVal;
  tx_accountId : string;
  tx_date : Z;           (* CURRENT_TIMESTAMP, in seconds *)
}.

(** [accounts] is keyed by its primary key; [transactions] is kept in
    insertion order; [seq] is the last rowid given by AUTOINCREMENT. *)
Record Store : Type := {
  accounts : gmap string Account;
  transactions : list TransactionRow;
  seq : Z;
}.

(** What a driver call hands to its callback. *)
Inductive DbResult (A : Type) : Type :=
| DbOk (a : A)
| DbError (message : string).
Arguments DbOk {A} a.
Arguments DbError {A} message.

(** A driver call is given the error the driver reports, if any. *)
Definition db_call {A : Type} (err : option string) (a : A) : DbResult A :=
  match err with
  | Some m => DbError m
  | None => DbOk a
  end.

Definition set_balance (v : SqlVal) (a : Account) : Account :=
  {| id := id a; accountNumber := accountNumber a; accountType := accountType a;
     balance := v; accountHolder := accountHolder a; createdAt := createdAt a |}.

(** [CHECK(type IN ("DEPOSIT", "WITHDRAWAL", "TRANSFER"))]: a CHECK
    constraint is violated only when its expression is false, and
    [NULL IN (...)] is NULL. *)
Definition check_type (v : SqlVal) : bool :=
  match v with
  | SqlNull => true
  | SqlText s =>
      String.eqb s "DEPOSIT" || String.eqb s "WITHDRAWAL" || String.eqb s "TRANSFER"
  | SqlNumber _ => false
  end.

(** [INSERT INTO transactions (type, amount, description, accountId, date)
     VALUES (?, ?, ?, ?, CURRENT_TIMESTAMP)] *)
Definition transactionsInsertQuery (err : option string) (now : Z)
    (type amount description : Js.Val) (accountId : string) (st : Store)
  : DbResult Store :=
  if check_type (bind type)
  then db_call err
         {| accounts := accounts st;
            transactions := transactions st ++
              [ {| tx_id := seq st + 1; tx_type := bind type;
                   tx_amount := bind amount; tx_description := bind description;
                   tx_accountId := accountId; tx_date := now |} ];
            seq := seq st + 1 |}
  else DbError "CHECK constraint failed".

(** [UPDATE accounts SET balance = ? WHERE id = ?] *)
Definition updateBalanceQuery (err : option string) (newBalance : Js.Num)
    (accountId : string) (st : Store) : DbResult Store :=
  db_call err
    {| accounts := alter (set_balance (bind (Js.VNum newBalance))) accountId (accounts st);
       transactions := transactions st;
       seq := seq st |}.

(** [ORDER BY date DESC, id DESC] *)
Definition newer (a b : TransactionRow) : bool :=
  (tx_date b <? tx_date a) || ((tx_date a =? tx_date b) && (tx_id b <? tx_id a)).

Fixpoint insert_by_date (t : TransactionRow) (l : list TransactionRow)
  : list TransactionRow :=
  match l with
  | [] => [t]
  | h :: r => if newer h t then h :: insert_by_date t r else t :: l
  end.

Definition order_by_date_id_desc (l : list TransactionRow) : list TransactionRow :=
  foldr insert_by_date [] l.

Definition transactions_of (accountId : string) (st : Store) : list TransactionRow :=
  filter (λ t, tx_accountId t = accountId) (transactions st).

(** [SELECT COUNT( * ) as total FROM transactions WHERE accountId = ?] *)
Definition countQuery (accountId : string) (st : Store) : Z :=
  Z.of_nat (length (transactions_of accountId st)).

(** [SELECT ... WHERE accountId = ? ORDER BY date DESC, id DESC LIMIT ? OFFSET ?];
    the handler calls it with [limit >= 1] and [offset >= 0] only. *)
Definition getTransactionsQuery (accountId : string) (limit offset : Z) (st : Store)
  : list TransactionRow :=
  take (Z.to_nat limit)
       (drop (Z.to_nat offset) (order_by_date_id_desc (transactions_of accountId st))).

(** [insertSampleData]: the two seeded accounts. *)
Definition sampleAccounts (now : string) : list Account :=
  [ {| id := "1"; accountNumber := "1001"; accountType := "CHECKING";
       balance := SqlNumber (Js.Fin 5000); accountHolder := "John Doe";
       createdAt := now |};
    {| id := "2"; accountNumber := "1002"; accountType := "SAVINGS";
       balance := SqlNumber (Js.Fin 10000); accountHolder := "Jane Smith";
       createdAt := now |} ].

Definition insertSampleData (now : string) : Store :=
  {| accounts := foldl (λ m a, <[id a := a]> m) ∅ (sampleAccounts now);
     transactions := [];
     seq := 0 |}.

(** ** Responses *)

Record Pagination : Type := {
  currentPage : Z;
  limit : Z;
  totalTransactions : Z;
  totalPages : Z;
  hasNextPage : bool;
  hasPreviousPage : bool;
}.

Inductive ResponseBody : Type :=
| JsonError (error : string)
| JsonStatus (type message : string)
| JsonBadRequest (name message : string)
| JsonAccounts (rows : list Account)
| JsonAccount (row : Account)
| JsonTransactions (type message : string)
    (rows : list TransactionRow) (pagination : Pagination)
| JsonCreated (type message : string)
    (transactionType amount : Js.Val) (newBalance : Js.Num).

Record Response : Type := {
  status : Z;
  json : ResponseBody;
}.

Definition ValidationError : Response :=
  {| status := 400;
     json := JsonStatus "Error"
       "Invalid pagination parameters. Page must be >= 1, limit must be between 1 and 100." |}.

Definition InsufficientFundsError : Response :=
  {| status := 400;
     json := JsonStatus "Error" "Insufficient funds for this transaction." |}.

Definition NotFoundError : Response :=
  {| status := 404; json := JsonStatus "Error" "Account not found." |}.

Definition StoreError (message : string) : Response :=
  {| status := 500; json := JsonStatus "Error" message |}.

(** The 400 of [validateCreateTransaction]; its [type] property holds the
    [Error] constructor, which JSON serialisation leaves out. *)
Definition BadRequest : Response :=
  {| status := 400;
     json := JsonBadRequest "Bad request" "Incomplete transaction details." |}.

(** ** The routes *)

(** [GET /api/accounts] *)
Definition getAccounts (err : option string) (st : Store) : Response :=
  match db_call err (map_to_list (accounts st)).*2 with
  | DbError m => {| status := 500; json := JsonError m |}
  | DbOk rows => {| status := 200; json := JsonAccounts rows |}
  end.

(** [GET /api/accounts/:id] *)
Definition getAccount (err : option string) (id : string) (st : Store) : Response :=
  match db_call err (accounts st !! id) with
  | DbError m => {| status := 500; json := JsonError m |}
  | DbOk None => {| status := 404; json := JsonError "Account not found" |}
  | DbOk (Some row) => {| status := 200; json := JsonAccount row |}
  end.

(** The errors the driver reports to the two queries of the listing. *)
Record ListDriver : Type := {
  countErr : option string;
  rowsErr : option string;
}.

(** [GET /api/accounts/:id/transactions?page&limit]; [q_page] and [q_limit]
    are [req.query.page] and [req.query.limit].  The handler reads
    [req.query.page] for both [page] and [limit]. *)
Definition getTransactions (drv : ListDriver) (id : string)
    (q_page q_limit : option string) (st : Store) : Response :=
  let page := Js.or_default (Js.parseInt_param q_page) 1 in
  let limit := Js.or_default (Js.parseInt_param q_page) 10 in
  let offset := (page - 1) * limit in
  if (page <? 1) || (limit <? 1) || (limit >? 100) then ValidationError
  else
    match db_call (countErr drv) (countQuery id st) with
    | DbError _ => StoreError "Failed to count transactions."
    | DbOk totalTransactions =>
        let totalPages := Js.ceil_div totalTransactions limit in
        match db_call (rowsErr drv) (getTransactionsQuery id limit offset st) with
        | DbError _ => StoreError "Failed to fetch transactions."
        | DbOk rows =>
            {| status := 200;
               json := JsonTransactions "Success"
                 "Transaction details fetched successfully."
                 rows
                 {| currentPage := page;
                    limit := limit;
                    totalTransactions := totalTransactions;
                    totalPages := totalPages;
                    hasNextPage := page <? totalPages;
                    hasPreviousPage := page >? 1 |} |}
        end
    end.

(** [req.body] of a POST: the three properties the route reads. *)
Record Body : Type := {
  type : Js.Val;
  amount : Js.Val;
  description : Js.Val;
}.

(** The errors the driver reports to the three statements of a POST, and
    the clock read by CURRENT_TIMESTAMP. *)
Record PostDriver : Type := {
  getErr : option string;
  insertErr : option string;
  updateErr : option string;
  now : Z;
}.

(** What a middleware did: the response it wrote, if any, and whether it
    called [next()]. *)
Record Middleware : Type := {
  written : option Response;
  next_called : bool;
}.

Section Routes.

Variable StringToNumber : string -> Js.Num.

Definition reject_condition (b : Body) : bool :=
  negb (Js.truthy (type b)) && negb (Js.truthy (amount b))
  && Js.le (Js.Number StringToNumber (amount b)) (Js.Fin 0)
  && negb (Js.truthy (description b)).

(** [validateCreateTransaction]: [next()] follows the [if] on every path. *)
Definition validateCreateTransaction (b : Body) : Middleware :=
  {| written := if reject_condition b then Some BadRequest else None;
     next_called := true |}.

(** The balance the handler computes from the fetched [balance] column. *)
Definition newBalance (current : SqlVal) (b : Body) : Js.Num :=
  let balance := Js.Number StringToNumber (column current) in
  if Js.strict_eq_str (type b) "DEPOSIT"
  then Js.add balance (Js.Number StringToNumber (amount b))
  else Js.sub balance (Js.Number StringToNumber (amount b)).

(** The handler of [POST /api/accounts/:id/transactions]: the store it
    leaves and the response it writes. *)
Definition createTransaction (drv : PostDriver) (id : string) (b : Body)
    (st : Store) : Store * Response :=
  match db_call (getErr drv) (balance <$> accounts st !! id) with
  | DbError _ => (st, StoreError "Failed to fetch account details.")
  | DbOk None => (st, NotFoundError)
  | DbOk (Some current) =>
      let newBalance := newBalance current b in
      if Js.lt newBalance (Js.Fin 0) then (st, InsufficientFundsError)
      else
        match transactionsInsertQuery (insertErr drv) (now drv)
                (type b) (amount b) (description b) id st with
        | DbError _ => (st, StoreError "Failed to create transaction.")
        | DbOk st1 =>
            match updateBalanceQuery (updateErr drv) newBalance id st1 with
            | DbError _ =>
                (st1, StoreError "Transaction created but failed to update balance.")
            | DbOk st2 =>
                (st2,
                 {| status := 201;
                    json := JsonCreated "Success"
                      "Transaction created and balance updated successfully."
                      (type b) (amount b) newBalance |})
            end
        end
  end.

(** The route [app.post(path, validateCreateTransaction, handler)]: the
    handler runs when the middleware has called [next()].  The result is
    the final store and the responses written, in order.  The client
    receives the first one; Express refuses a second write on the same
    response, and as every path of the handler ends with its write, no
    statement of the handler is skipped by that refusal. *)
Definition postTransaction (drv : PostDriver) (id : string) (b : Body)
    (st : Store) : Store * list Response :=
  let m := validateCreateTransaction b in
  if next_called m
  then let '(st', r) := createTransaction drv id b st in
       (st', option_list (written m) ++ [r])
  else (st, option_list (written m)).

End Routes.

(** The response the client receives. *)
Definition received (rs : list Response) : option Response := head rs.

(** ** The client's transactions ([client/src/types.ts], [client/src/api.ts]) *)

Inductive TransactionType : Type := DEPOSIT | WITHDRAWAL | TRANSFER.

(** [Transaction]: [type] is a [TransactionType] or the empty string
    ([None]); [amount] is a finite number. *)
Record Transaction : Type := {
  t_type : option TransactionType;
  t_amount : Q;
  t_description : string;
}.

Definition type_name (t : option TransactionType) : string :=
  match t with
  | Some DEPOSIT => "DEPOSIT"
  | Some WITHDRAWAL => "WITHDRAWAL"
  | Some TRANSFER => "TRANSFER"
  | None => ""
  end.

(** [JSON.stringify(transactionData)], as the server parses it. *)
Definition body_of (t : Transaction) : Body :=
  {| type := Js.VStr (type_name (t_type t));
     amount := Js.VNum (Js.Fin (t_amount t));
     description := Js.VStr (t_description t) |}.

(** ** A server serving requests one after the other *)

Inductive Request : Type :=
| GetAccounts (err : option string)
| GetAccount (err : option string) (id : string)
| GetTransactions (drv : ListDriver) (id : string) (q_page q_limit : option string)
| PostTransaction (drv : PostDriver) (id : string) (b : Body).

Definition is_write (r : Request) : bool :=
  match r with
  | PostTransaction _ _ _ => true
  | _ => false
  end.

Section Server.

Variable StringToNumber : string -> Js.Num.

Definition serve (r : Request) (st : Store) : Store * list Response :=
  match r with
  | GetAccounts err => (st, [getAccounts err st])
  | GetAccount err id => (st, [getAccount err id st])
  | GetTransactions drv id p l => (st, [getTransactions drv id p l st])
  | PostTransaction drv id b => postTransaction StringToNumber drv id b st
  end.

(** The store after a sequence of requests, each of them served.  The
    process exits after a POST answered twice ([run] below follows it up to
    there); the stores it holds while it runs are among those met here
    (lemma [run_running]). *)
Definition serve_all (rs : list Request) (st : Store) : Store :=
  foldl (λ s r, fst (serve r s)) st rs.

(** The store after a sequence of requests, each of them served, and for
    each request what the client received. *)
Fixpoint serve_trace (rs : list Request) (st : Store)
  : Store * list (Request * option Response) :=
  match rs with
  | [] => (st, [])
  | r :: rs' =>
      let '(st1, out) := serve r st in
      let '(st2, tr) := serve_trace rs' st1 in
      (st2, (r, received out) :: tr)
  end.

End Server.





(** A POST as the client's [createTransaction] sends it. *)
Definition client_post (p : PostDriver * string * Transaction) : Request :=
  let '(drv, id, t) := p in PostTransaction drv id (body_of t).

(** ** Requests and stores for the examples *)

Definition no_errors (t : Z) : PostDriver :=
  {| getErr := None; insertErr := None; updateErr := None; now := t |}.

Definition no_list_errors : ListDriver := {| countErr := None; rowsErr := None |}.

(** The rows and the envelope of an answer of the listing. *)
Definition rows_of (r : Response) : list TransactionRow :=
  match json r with
  | JsonTransactions _ _ rows _ => rows
  | _ => []
  end.

Definition pagination_of (r : Response) : option Pagination :=
  match json r with
  | JsonTransactions _ _ _ p => Some p
  | _ => None
  end.

(** A body with no property at all. *)
Definition empty_body : Body :=
  {| type := Js.VUndefined; amount := Js.VUndefined; description := Js.VUndefined |}.

(** A body holding [amount: 0] only. *)
Definition zero_body : Body :=
  {| type := Js.VUndefined; amount := Js.VNum (Js.Fin 0); description := Js.VUndefined |}.

(** A deposit of -5 with an empty description. *)
Definition negative_deposit : Body :=
  {| type := Js.VStr "DEPOSIT"; amount := Js.VNum (Js.Fin (-5));
     description := Js.VStr "" |}.

Definition withdrawal_6000 : Body :=
  {| type := Js.VStr "WITHDRAWAL"; amount := Js.VNum (Js.Fin 6000);
     description := Js.VStr "rent" |}.

Definition deposit_500 : Body :=
  {| type := Js.VStr "DEPOSIT"; amount := Js.VNum (Js.Fin 500);
     description := Js.VStr "payroll" |}.

Definition seeded : Store := insertSampleData "2024-01-01T00:00:00.000Z".

Definition account_1 : Account :=
  {| id := "1"; accountNumber := "1001"; accountType := "CHECKING";
     balance := SqlNumber (Js.Fin 5000); accountHolder := "John Doe";
     createdAt := "2024-01-01T00:00:00.000Z" |}.

(** Fifteen transactions of account "1", two per second. *)
Definition fifteen_rows : list TransactionRow :=
  map (λ i, {| tx_id := i; tx_type := SqlText "DEPOSIT";
               tx_amount := SqlNumber (Js.Fin 10); tx_description := SqlText "payroll";
               tx_accountId := "1"; tx_date := 1700000000 + i / 2 |})
      (seqZ 1 15).

Definition fifteen (c : string) : Store :=
  {| accounts := accounts (insertSampleData c);
     transactions := fifteen_rows;
     seq := 15 |}.

(** A deposit, a withdrawal, a refused withdrawal and a transfer on
    another account. *)
Definition four_posts : list (PostDriver * string * Transaction) :=
  [ (no_errors 1, "1",
     {| t_type := Some DEPOSIT; t_amount := 500; t_description := "payroll" |});
    (no_errors 2, "1",
     {| t_type := Some WITHDRAWAL; t_amount := 200; t_description := "cash" |});
    (no_errors 3, "1",
     {| t_type := Some WITHDRAWAL; t_amount := 6000; t_description := "rent" |});
    (no_errors 4, "2",
     {| t_type := Some TRANSFER; t_amount := 50; t_description := "gift" |}) ].

Definition created_5500 : Response :=
  {| status := 201;
     json := JsonCreated "Success"
       "Transaction created and balance updated successfully."
       (Js.VStr "DEPOSIT") (Js.VNum (Js.Fin 500)) (Js.Fin (5000 + 500)) |}.

Definition update_fails : PostDriver :=
  {| getErr := None; insertErr := None; updateErr := Some "disk I/O error"; now := 7 |}.

Definition deposit_500_row : TransactionRow :=
  {| tx_id := 1; tx_type := SqlText "DEPOSIT"; tx_amount := SqlNumber (Js.Fin 500);
     tx_description := SqlText "payroll"; tx_accountId := "1"; tx_date := 7 |}.

Definition seeded_with_row : Store :=
  {| accounts := accounts seeded; transactions := [deposit_500_row]; seq := 1 |}.

Definition two_reads : list Request :=
  [ GetAccounts None; GetTransactions no_list_errors "1" (Some "1") None ].

(** ** Orders and invariants of the store *)

(** [a] may stand before [b] in a listing: [b] is not newer than [a]. *)
Definition not_older (a b : TransactionRow) : Prop := newer b a = false.

(** The row a POST to [accountId] with body [b] inserts into [st]. *)
Definition inserted_row (drv : PostDriver) (accountId : string) (b : Body)
    (st : Store) : TransactionRow :=
  {| tx_id := seq st + 1; tx_type := bind (type b); tx_amount := bind (amount b);
     tx_description := bind (description b); tx_accountId := accountId;
     tx_date := now drv |}.

(** Two account rows that differ at most in their balance. *)
Definition same_but_balance (a a' : Account) : Prop :=
  id a = id a' /\ accountNumber a = accountNumber a'
  /\ accountType a = accountType a' /\ accountHolder a = accountHolder a'
  /\ createdAt a = createdAt a'.

(** The same accounts, each differing at most in its balance. *)
Definition same_accounts (st st' : Store) : Prop :=
  forall i,
    match accounts st !! i, accounts st' !! i with
    | Some a, Some a' => same_but_balance a a'
    | None, None => True
    | _, _ => False
    end.

(** The rowids are strictly increasing along the table and none is above
    the AUTOINCREMENT counter. *)
Definition ids_in_sequence (st : Store) : Prop :=
  StronglySorted Z.lt (map tx_id (transactions st))
  /\ Forall (λ t, tx_id t <= seq st) (transactions st).

(** Every row refers to an account of the store and has a type the CHECK
    constraint admits. *)
Definition rows_valid (st : Store) : Prop :=
  Forall (λ t, is_Some (accounts st !! tx_accountId t)
               /\ check_type (tx_type t) = true)
         (transactions st).

(** No balance reads as a negative number. *)
Definition no_negative_balance (StringToNumber : string -> Js.Num) (st : Store) : Prop :=
  forall i a,
    accounts st !! i = Some a ->
    Js.lt (Js.Number StringToNumber (column (balance a))) (Js.Fin 0) = false.

(** The 500 written when the balance update fails after the insert. *)
Definition is_update_failure (r : Response) : bool :=
  match json r with
  | JsonStatus _ m =>
      (status r =? 500)
      && String.eqb m "Transaction created but failed to update balance."
  | _ => false
  end.

(** A request and the response received for it stand for a row recorded
    for account [A]: a POST to [A] answered by 201 or by the 500 of a
    failed balance update. *)
Definition recorded (A : string) (e : Request * option Response) : bool :=
  match e with
  | (PostTransaction _ id _, Some r) =>
      bool_decide (id = A) && ((status r =? 201) || is_update_failure r)
  | _ => false
  end.

Definition recorded_count (A : string) (tr : list (Request * option Response)) : Z :=
  Z.of_nat (length (List.filter (recorded A) tr)).

(** ** The process *)

(** The server process runs, holding its store, or it has exited. *)
Inductive Process : Type :=
| Running (st : Store)
| Exited.

Section Process.

Variable StringToNumber : string -> Js.Num.

(** One request to the process.  Every handler writes its response in a
    callback of the driver; when a response was written already, the write
    raises ERR_HTTP_HEADERS_SENT there, nothing catches it, and the process
    exits, its in-memory database lost.  The client has received the first
    response.  A process that has exited answers nothing. *)
Definition serve_process (r : Request) (p : Process) : Process * option Response :=
  match p with
  | Exited => (Exited, None)
  | Running st =>
      let '(st', out) := serve StringToNumber r st in
      (match out with
       | _ :: _ :: _ => Exited
       | _ => Running st'
       end,
       received out)
  end.

(** The process after a sequence of requests, and for each request what
    the client received. *)
Fixpoint run (rs : list Request) (p : Process)
  : Process * list (Request * option Response) :=
  match rs with
  | [] => (p, [])
  | r :: rs' =>
      let '(p1, resp) := serve_process r p in
      let '(p2, tr) := run rs' p1 in
      (p2, (r, resp) :: tr)
  end.

(** The body of a transaction committed on account [A]: a POST to [A]
    answered by 201. *)
Definition committed_on (A : string) (e : Request * option Response) : option Body :=
  match e with
  | (PostTransaction _ id b, Some r) =>
      if bool_decide (id = A) && (status r =? 201) then Some b else None
  | _ => None
  end.

(** The balance column obtained from [bal] by computing and storing, for
    each transaction committed on [A] in turn, the new balance of the
    handler: the balance plus the amount for a DEPOSIT, minus the amount
    for any other type. *)
Definition replay (A : string) (tr : list (Request * option Response))
    (bal : SqlVal) : SqlVal :=
  foldl (λ bal e,
           match committed_on A e with
           | Some b => bind (Js.VNum (newBalance StringToNumber bal b))
           | None => bal
           end)
        bal tr.

End Process.

(** ** The client ([client/src/api.ts] and the [AccountList] component) *)





(** [response.ok]: a status from 200 to 299. *)
Definition ok (r : Response) : bool := (200 <=? status r) && (status r <=? 299).

(** What a call of [api.ts] gives its caller: the parsed body of the
    response, or the Error it throws. *)
Inductive ApiResult : Type :=
| Resolved (body : ResponseBody)
| Thrown (message : string).

Definition api_result (message : string) (r : option Response) : ApiResult :=
  match r with
  | Some r => if ok r then Resolved (json r) else Thrown message
  | None => Thrown message
  end.



Section Client.

Variable StringToNumber : string -> Js.Num.

(** [createTransaction({accountId, transactionData})] of [api.ts]: the POST
    of [JSON.stringify(transactionData)], served on [st]. *)
Definition api_createTransaction (drv : PostDriver) (accountId : string)
    (t : Transaction) (st : Store) : Store * ApiResult :=
  let '(st', out) := postTransaction StringToNumber drv accountId (body_of t) st in
  (st', api_result "Failed to insert account transactions" (received out)).

(** [accounts.find((acct) => acct.id === accountId)?.balance ?? 0] over the
    account rows the component holds. *)
Definition held_balance (held : list Account) (accountId : string) : Js.Val :=
  match List.find (λ a, String.eqb (id a) accountId) held with
  | Some a =>
      match column (balance a) with
      | Js.VNull | Js.VUndefined => Js.VNum (Js.Fin 0)
      | v => v
      end
  | None => Js.VNum (Js.Fin 0)
  end.

(** [type !== "DEPOSIT" && amount > (... ?? 0)] *)
Definition exceeds_balance (held : list Account) (accountId : string)
    (t : Transaction) : bool :=
  negb (String.eqb (type_name (t_type t)) "DEPOSIT")
  && Js.lt (Js.Number StringToNumber (held_balance held accountId))
           (Js.Fin (t_amount t)).

(** The messages [setInputError] is given. *)
Record InputError : Type := {
  type_error : string;
  amount_error : string;
  description_error : string;
}.

(** [handleCreateTransaction]: the form is refused with its messages, or
    the transaction is sent. *)
Inductive Submission : Type :=
| Refused (e : InputError)
| Sent (r : ApiResult).

Definition handleCreateTransaction (drv : PostDriver) (held : list Account)
    (accountId : string) (t : Transaction) (st : Store) : Store * Submission :=
  let no_type := String.eqb (type_name (t_type t)) "" in
  let no_description := String.eqb (t_description t) "" in
  let no_amount := Qeq_bool (t_amount t) 0 in
  let not_positive := Qle_bool (t_amount t) 0 in
  if no_type || no_description || no_amount || not_positive
     || exceeds_balance held accountId t
  then
    (st,
     Refused
       {| type_error := if no_type then "Transaction type is required" else "";
          amount_error :=
            if no_amount then "Amount is required"
            else if not_positive then "Amount must be greater than zero"
            else if exceeds_balance held accountId t then "Insufficient balance"
            else "";
          description_error :=
            if no_description then "Description is required" else "" |})
  else
    let '(st', r) := api_createTransaction drv accountId t st in
    (st', Sent r).

End Client.

(** ** More requests and stores for the examples *)

Definition bogus_type : Body :=
  {| type := Js.VStr "BOGUS"; amount := Js.VNum (Js.Fin 5);
     description := Js.VStr "x" |}.

(** Four POSTs of the client, then two reads. *)
Definition six_requests : list Request := map client_post four_posts ++ two_reads.


Definition rent_6000 : Transaction :=
  {| t_type := Some WITHDRAWAL; t_amount := 6000; t_description := "rent" |}.

Definition fifteen_store : Store := fifteen "2024-01-01T00:00:00.000Z".


(** Seven requests: the six above, then a POST the middleware answers,
    after which the process has exited. *)
Definition seven_requests : list Request :=
  six_requests ++ [PostTransaction (no_errors 9) "1" zero_body].

(** * Properties *)

Example parseInt_2 : Js.parseInt "2" = Some 2.
Proof. reflexivity. Qed.
Example parseInt_neg : Js.parseInt "  -12px" = Some (-12).
Proof. reflexivity. Qed.
Example parseInt_hex : Js.parseInt "0x1f" = Some 31.
Proof. reflexivity. Qed.
Example parseInt_nan : Js.parseInt_param None = None.
Proof. reflexivity. Qed.
Example ceil_div_15_2 : Js.ceil_div 15 2 = 8.
Proof. reflexivity. Qed.

Section PostProperties.

Variable StringToNumber : string -> Js.Num.

Local Abbreviation postTransaction := (postTransaction StringToNumber).
Local Abbreviation createTransaction := (createTransaction StringToNumber).
Local Abbreviation newBalance := (newBalance StringToNumber).
Local Abbreviation reject_condition := (reject_condition StringToNumber).
Local Abbreviation validateCreateTransaction := (validateCreateTransaction StringToNumber).

(** The route always runs the handler after the middleware. *)
Lemma postTransaction_unfold drv id b st :
  postTransaction drv id b st =
    (fst (createTransaction drv id b st),
     option_list (if reject_condition b then Some BadRequest else None)
       ++ [snd (createTransaction drv id b st)]).
Proof.
  unfold postTransaction. cbn.
  destruct (createTransaction drv id b st) as [st' r]. reflexivity.
Qed.

Lemma received_post drv id b st :
  received (snd (postTransaction drv id b st)) =
    Some (if reject_condition b then BadRequest
          else snd (createTransaction drv id b st)).
Proof.
  rewrite postTransaction_unfold. cbn.
  destruct (reject_condition b); reflexivity.
Qed.

(** A POST answered by 201 was not answered by the middleware, and the
    201 is the handler's. *)
Lemma received_201 drv id b st r :
  received (snd (postTransaction drv id b st)) = Some r ->
  status r = 201 ->
  reject_condition b = false /\ snd (createTransaction drv id b st) = r.
Proof.
  rewrite received_post. intros Hr Hs.
  destruct (reject_condition b); inversion Hr; subst; [discriminate Hs | auto].
Qed.

(** The paths of the handler on an account whose row is fetched. *)
Lemma createTransaction_found drv id b st acc :
  accounts st !! id = Some acc ->
  getErr drv = None ->
  createTransaction drv id b st =
    let nb := newBalance (balance acc) b in
    if Js.lt nb (Js.Fin 0) then (st, InsufficientFundsError)
    else
      match transactionsInsertQuery (insertErr drv) (now drv)
              (type b) (amount b) (description b) id st with
      | DbError _ => (st, StoreError "Failed to create transaction.")
      | DbOk st1 =>
          match updateBalanceQuery (updateErr drv) nb id st1 with
          | DbError _ =>
              (st1, StoreError "Transaction created but failed to update balance.")
          | DbOk st2 =>
              (st2,
               {| status := 201;
                  json := JsonCreated "Success"
                    "Transaction created and balance updated successfully."
                    (type b) (amount b) nb |})
          end
      end.
Proof.
  intros Hacc Hget. unfold createTransaction.
  rewrite Hget, Hacc. reflexivity.
Qed.

(** C1.  A POST on an existing account whose computed new balance is
    negative leaves the store as it was (no Transaction row, balance
    unchanged); the handler answers with the insufficient-funds error,
    the client receives a 400, and that 400 is the insufficient-funds
    error itself unless the middleware had already written its own. *)
Theorem insufficient_funds_rejected drv id b st acc :
  accounts st !! id = Some acc ->
  getErr drv = None ->
  Js.lt (newBalance (balance acc) b) (Js.Fin 0) = true ->
  fst (postTransaction drv id b st) = st
  /\ last (snd (postTransaction drv id b st)) = Some InsufficientFundsError
  /\ (exists r, received (snd (postTransaction drv id b st)) = Some r
                /\ status r = 400)
  /\ (reject_condition b = false ->
      snd (postTransaction drv id b st) = [InsufficientFundsError]).
Proof.
  intros Hacc Hget Hneg.
  rewrite postTransaction_unfold.
  rewrite (createTransaction_found _ _ _ _ _ Hacc Hget). cbn zeta.
  rewrite Hneg. cbn [fst snd].
  split; [reflexivity |].
  split; [apply last_snoc |].
  split.
  - destruct (reject_condition b); cbn; eexists; split; reflexivity.
  - intros ->. reflexivity.
Qed.

(** The insert statement adds one row at the end of [transactions], with
    the next rowid, and touches nothing else. *)
Lemma transactionsInsertQuery_ok err t ty am de id st st1 :
  transactionsInsertQuery err t ty am de id st = DbOk st1 ->
  accounts st1 = accounts st
  /\ transactions st1 = transactions st ++
       [ {| tx_id := seq st + 1; tx_type := bind ty; tx_amount := bind am;
            tx_description := bind de; tx_accountId := id; tx_date := t |} ]
  /\ check_type (bind ty) = true.
Proof.
  unfold transactionsInsertQuery, db_call.
  destruct (check_type (bind ty)); [| discriminate].
  destruct err; [discriminate |].
  intros [= <-]. cbn. auto.
Qed.

(** C9.  The insert and the balance update are two separate writes, the
    second made only after the first has succeeded: when the update fails
    after the insert succeeded, the handler answers 500, the Transaction
    row stays recorded and the accounts table is what it was. *)
Theorem update_failure_keeps_row drv id b st acc st1 m :
  accounts st !! id = Some acc ->
  getErr drv = None ->
  Js.lt (newBalance (balance acc) b) (Js.Fin 0) = false ->
  transactionsInsertQuery (insertErr drv) (now drv)
    (type b) (amount b) (description b) id st = DbOk st1 ->
  updateErr drv = Some m ->
  fst (postTransaction drv id b st) = st1
  /\ transactions st1 = transactions st ++
       [ {| tx_id := seq st + 1; tx_type := bind (type b);
            tx_amount := bind (amount b); tx_description := bind (description b);
            tx_accountId := id; tx_date := now drv |} ]
  /\ accounts st1 !! id = Some acc
  /\ (exists r, last (snd (postTransaction drv id b st)) = Some r
                /\ status r = 500
                /\ json r = JsonStatus "Error"
                     "Transaction created but failed to update balance.")
  /\ (reject_condition b = false ->
      exists r, snd (postTransaction drv id b st) = [r] /\ status r = 500).
Proof.
  intros Hacc Hget Hpos Hins Hupd.
  destruct (transactionsInsertQuery_ok _ _ _ _ _ _ _ _ Hins) as (Ha & Ht & _).
  rewrite postTransaction_unfold.
  rewrite (createTransaction_found _ _ _ _ _ Hacc Hget). cbn zeta.
  rewrite Hpos, Hins. unfold updateBalanceQuery. rewrite Hupd. cbn [db_call fst snd].
  split; [reflexivity |].
  split; [exact Ht |].
  split; [rewrite Ha; exact Hacc |].
  split.
  - eexists. split; [apply last_snoc |]. split; reflexivity.
  - intros ->. eexists. split; reflexivity.
Qed.

(** C6.  A POST answered by 201 on an existing account: the new balance
    is the old one plus the amount for a DEPOSIT and minus the amount for
    a WITHDRAWAL or a TRANSFER; the body of the 201 carries the type and
    the amount of the request and that new balance, which is also what
    the account row now holds. *)
Theorem created_response drv id b st acc r :
  accounts st !! id = Some acc ->
  received (snd (postTransaction drv id b st)) = Some r ->
  status r = 201 ->
  exists nb,
    (type b = Js.VStr "DEPOSIT" ->
     nb = Js.add (Js.Number StringToNumber (column (balance acc)))
                 (Js.Number StringToNumber (amount b)))
    /\ (type b = Js.VStr "WITHDRAWAL" \/ type b = Js.VStr "TRANSFER" ->
        nb = Js.sub (Js.Number StringToNumber (column (balance acc)))
                    (Js.Number StringToNumber (amount b)))
    /\ json r = JsonCreated "Success"
         "Transaction created and balance updated successfully."
         (type b) (amount b) nb
    /\ accounts (fst (postTransaction drv id b st)) !! id
       = Some (set_balance (bind (Js.VNum nb)) acc)
    /\ Js.lt nb (Js.Fin 0) = false.
Proof.
  intros Hacc Hrec Hst.
  destruct (received_201 _ _ _ _ _ Hrec Hst) as [_ Hr].
  rewrite postTransaction_unfold. cbn [fst].
  unfold createTransaction in *. rewrite Hacc in *.
  destruct (getErr drv); cbn [db_call fmap option_fmap option_map] in *;
    [subst r; discriminate Hst |].
  exists (newBalance (balance acc) b).
  destruct (Js.lt (newBalance (balance acc) b) (Js.Fin 0)) eqn:Hlt;
    [subst r; discriminate Hst |].
  destruct (transactionsInsertQuery _ _ _ _ _ _ _) as [st1 |] eqn:Hins;
    [| subst r; discriminate Hst].
  destruct (transactionsInsertQuery_ok _ _ _ _ _ _ _ _ Hins) as (Ha & _ & _).
  unfold updateBalanceQuery in *.
  destruct (updateErr drv); cbn [db_call fst snd] in *;
    [subst r; discriminate Hst |].
  subst r. cbn.
  repeat split.
  - intros Hty. unfold newBalance. rewrite Hty. reflexivity.
  - intros [Hty | Hty]; unfold newBalance; rewrite Hty; reflexivity.
  - rewrite lookup_alter_eq, Ha, Hacc. reflexivity.
Qed.

(** [validateCreateTransaction] calls [next()] whatever it wrote. *)
Lemma validateCreateTransaction_next b :
  next_called (validateCreateTransaction b) = true.
Proof. reflexivity. Qed.

(** C10.  [validateCreateTransaction] calls [next()] for every request,
    so the handler runs, and its effect on the store stands, also when
    the middleware has written its 400: the body [{amount: 0}] is answered
    400 by the middleware and still gets a Transaction row.  For a body
    with no property the reject condition is false ([undefined <= 0] is
    false) and the middleware writes nothing. *)
Theorem validateCreateTransaction_passes_through :
  (forall b, next_called (validateCreateTransaction b) = true)
  /\ (forall drv id b st,
        reject_condition b = true ->
        postTransaction drv id b st =
          (fst (createTransaction drv id b st),
           [BadRequest; snd (createTransaction drv id b st)])
        /\ status BadRequest = 400)
  /\ (forall t c,
        reject_condition zero_body = true
        /\ transactions
             (fst (postTransaction (no_errors t) "1" zero_body (insertSampleData c)))
           = [ {| tx_id := 1; tx_type := SqlNull;
                  tx_amount := SqlNumber (Js.Fin 0); tx_description := SqlNull;
                  tx_accountId := "1"; tx_date := t |} ])
  /\ reject_condition empty_body = false
  /\ written (validateCreateTransaction empty_body) = None.
Proof.
  split; [reflexivity |].
  split.
  { intros drv id b st Hrej. rewrite postTransaction_unfold, Hrej. split; reflexivity. }
  split.
  { intros t c. split; [reflexivity |]. vm_compute. reflexivity. }
  split; reflexivity.
Qed.



(** A process that has exited stays so and answers nothing. *)
Lemma run_exited rs :
  fst (run StringToNumber rs Exited) = Exited.
Proof.
  induction rs as [| r rs IH]; [reflexivity |].
  cbn [run serve_process].
  destruct (run StringToNumber rs Exited) as [p tr]. exact IH.
Qed.

(** While the process runs, its store is the one reached by serving
    every request. *)
Lemma run_running rs st st' :
  fst (run StringToNumber rs (Running st)) = Running st' ->
  st' = serve_all StringToNumber rs st.
Proof.
  revert st. induction rs as [| r rs IH]; intros st; [intros [= <-]; reflexivity |].
  cbn [run serve_process].
  destruct (serve StringToNumber r st) as [st1 out] eqn:Hserve.
  assert (Hst1 : st1 = fst (serve StringToNumber r st)) by (rewrite Hserve; reflexivity).
  destruct out as [| r1 [| r2 out]].
  - specialize (IH st1). destruct (run StringToNumber rs (Running st1)) as [p2 tr].
    cbn [fst] in *. intros H. rewrite (IH H). unfold serve_all. cbn [foldl].
    rewrite <- Hst1. reflexivity.
  - specialize (IH st1). destruct (run StringToNumber rs (Running st1)) as [p2 tr].
    cbn [fst] in *. intros H. rewrite (IH H). unfold serve_all. cbn [foldl].
    rewrite <- Hst1. reflexivity.
  - pose proof (run_exited rs) as Hex.
    destruct (run StringToNumber rs Exited) as [p2 tr]. cbn [fst] in *.
    rewrite Hex. discriminate.
Qed.


(** C5 (the code at a body that violates the input constraints).  The
    body [{type: "DEPOSIT", amount: -5, description: ""}] sent to the seeded
    account "1" is not rejected: the middleware writes nothing, the
    handler reads the account, inserts a Transaction row, lowers the
    balance from 5000 to 4995 and answers 201. *)
Theorem negative_deposit_committed (t : Z) (c : string) :
  let out := postTransaction (no_errors t) "1" negative_deposit (insertSampleData c) in
  written (validateCreateTransaction negative_deposit) = None
  /\ snd out =
       [ {| status := 201;
            json := JsonCreated "Success"
              "Transaction created and balance updated successfully."
              (Js.VStr "DEPOSIT") (Js.VNum (Js.Fin (-5))) (Js.Fin 4995) |} ]
  /\ transactions (fst out) =
       [ {| tx_id := 1; tx_type := SqlText "DEPOSIT";
            tx_amount := SqlNumber (Js.Fin (-5)); tx_description := SqlText "";
            tx_accountId := "1"; tx_date := t |} ]
  /\ balance <$> accounts (fst out) !! "1" = Some (SqlNumber (Js.Fin 4995)).
Proof.
  cbn zeta. split; [reflexivity |].
  split; [vm_compute; reflexivity |].
  split; vm_compute; reflexivity.
Qed.

(** A body whose [type] is [null] passes the middleware and the CHECK
    constraint: it is stored with a NULL type and its amount is
    subtracted. *)
Example null_type_subtracted (t : Z) (c : string) :
  let out := postTransaction (no_errors t) "1"
    {| type := Js.VNull; amount := Js.VNum (Js.Fin 5);
       description := Js.VStr "fee" |} (insertSampleData c) in
  (status <$> received (snd out)) = Some 201
  /\ map tx_type (transactions (fst out)) = [SqlNull]
  /\ balance <$> accounts (fst out) !! "1" = Some (SqlNumber (Js.Fin 4995)).
Proof. cbn zeta. repeat split; vm_compute; reflexivity. Qed.

(** The two scenarios on the seeded account "1" (balance 5000). *)
Example withdrawal_6000_refused (t : Z) (c : string) :
  postTransaction (no_errors t) "1"
    {| type := Js.VStr "WITHDRAWAL"; amount := Js.VNum (Js.Fin 6000);
       description := Js.VStr "rent" |} (insertSampleData c)
  = (insertSampleData c, [InsufficientFundsError]).
Proof. vm_compute. reflexivity. Qed.

Example deposit_500_created (t : Z) (c : string) :
  let out := postTransaction (no_errors t) "1"
    {| type := Js.VStr "DEPOSIT"; amount := Js.VNum (Js.Fin 500);
       description := Js.VStr "payroll" |} (insertSampleData c) in
  (status <$> received (snd out)) = Some 201
  /\ json (getAccount None "1" (fst out))
     = (JsonAccount
         {| id := "1"; accountNumber := "1001"; accountType := "CHECKING";
            balance := SqlNumber (Js.Fin 5500); accountHolder := "John Doe";
            createdAt := c |}).
Proof. cbn zeta. split; vm_compute; reflexivity. Qed.

End PostProperties.

(** ** The listing *)

(** [Math.ceil(a / b)] in terms of integer division. *)
Lemma ceil_div_eq a b : 0 < b -> Js.ceil_div a b = - ((- a) / b).
Proof.
  intros Hb. destruct b as [| p | p]; try lia.
  unfold Js.ceil_div, Qceiling, Qfloor, Qdiv, Qinv, Qmult, Qopp, inject_Z.
  cbn [Qnum Qden]. rewrite Z.mul_1_r, Pos.mul_1_l. reflexivity.
Qed.

(** The quotient rounded up is the least number of pages of [b] rows
    that hold [a] rows. *)
Lemma ceil_div_bounds a b :
  0 < b -> b * (Js.ceil_div a b - 1) < a <= b * Js.ceil_div a b.
Proof.
  intros Hb. rewrite (ceil_div_eq a b Hb).
  pose proof (Z.div_mod (- a) b ltac:(lia)) as Hdm.
  pose proof (Z.mod_pos_bound (- a) b Hb) as Hm.
  nia.
Qed.

(** [page] and [limit] as the handler computes them from [req.query.page]. *)
Lemma getTransactions_ok drv id q_page q_limit st :
  let page := Js.or_default (Js.parseInt_param q_page) 1 in
  let limit := Js.or_default (Js.parseInt_param q_page) 10 in
  status (getTransactions drv id q_page q_limit st) = 200 ->
  1 <= page /\ 1 <= limit <= 100
  /\ getTransactions drv id q_page q_limit st =
       {| status := 200;
          json := JsonTransactions "Success"
            "Transaction details fetched successfully."
            (getTransactionsQuery id limit ((page - 1) * limit) st)
            {| currentPage := page;
               limit := limit;
               totalTransactions := countQuery id st;
               totalPages := Js.ceil_div (countQuery id st) limit;
               hasNextPage := page <? Js.ceil_div (countQuery id st) limit;
               hasPreviousPage := page >? 1 |} |}.
Proof.
  intros page limit. unfold getTransactions. fold page limit.
  destruct ((page <? 1) || (limit <? 1) || (limit >? 100)) eqn:Hv;
    [intros H; discriminate H |].
  destruct (countErr drv); cbn [db_call]; [intros H; discriminate H |].
  destruct (rowsErr drv); cbn [db_call]; [intros H; discriminate H |].
  intros _. split; [lia |]. split; [lia | reflexivity].
Qed.


(** The listing never reads [req.query.limit]. *)
Lemma getTransactions_ignores_limit drv id q_page l l' st :
  getTransactions drv id q_page l st = getTransactions drv id q_page l' st.
Proof. reflexivity. Qed.

(** When the listing answers 400: exactly when [req.query.page] parses to
    a negative integer or to one above 100. *)
Lemma getTransactions_400 drv id q_page q_limit st :
  getTransactions drv id q_page q_limit st = ValidationError
  <-> exists n, Js.parseInt_param q_page = Some n /\ (n < 0 \/ 100 < n).
Proof.
  unfold getTransactions, Js.or_default.
  destruct (Js.parseInt_param q_page) as [n |].
  - destruct (Z.eqb_spec n 0) as [-> | Hn].
    + cbn. split.
      * destruct (countErr drv); cbn; [discriminate |].
        destruct (rowsErr drv); cbn; discriminate.
      * intros (n & [= <-] & H). lia.
    + destruct ((n <? 1) || (n <? 1) || (n >? 100)) eqn:Hv.
      * split; [| reflexivity]. intros _. exists n. split; [reflexivity | lia].
      * split.
        -- destruct (countErr drv); cbn; [discriminate |].
           destruct (rowsErr drv); cbn; discriminate.
        -- intros (m & [= <-] & H). lia.
  - cbn. split.
    + destruct (countErr drv); cbn; [discriminate |].
      destruct (rowsErr drv); cbn; discriminate.
    + intros (n & H & _). discriminate H.
Qed.

Lemma insert_by_date_length t l : length (insert_by_date t l) = S (length l).
Proof.
  induction l as [| h r IH]; cbn; [reflexivity |].
  destruct (newer h t); cbn; [rewrite IH |]; reflexivity.
Qed.

Lemma order_by_date_id_desc_length l : length (order_by_date_id_desc l) = length l.
Proof.
  induction l as [| t l IH]; cbn; [reflexivity |].
  rewrite insert_by_date_length. f_equal. exact IH.
Qed.

(** C3 (the code at the scenario).  With exactly 15 transactions of the
    account, [?page=2&limit=10] is served with [limit = 2]: the answer
    holds the 2 rows ranked 3 and 4, not the 5 rows ranked 11 to 15,
    [totalPages] is 8 and [hasNextPage] is true. *)
Theorem page_2_limit_10_of_15 id st :
  countQuery id st = 15 ->
  let r := getTransactions no_list_errors id (Some "2") (Some "10") st in
  let ranked := order_by_date_id_desc (transactions_of id st) in
  status r = 200
  /\ rows_of r = take 2 (drop 2 ranked)
  /\ length (rows_of r) = 2%nat
  /\ length (drop 10 ranked) = 5%nat
  /\ pagination_of r =
       Some {| currentPage := 2; limit := 2; totalTransactions := 15;
               totalPages := 8; hasNextPage := true; hasPreviousPage := true |}.
Proof.
  intros Hc r ranked. subst r.
  assert (Hlen : length ranked = 15%nat).
  { subst ranked. rewrite order_by_date_id_desc_length.
    unfold countQuery in Hc. lia. }
  unfold getTransactions, rows_of, pagination_of.
  change (Js.parseInt_param (Some "2")) with (Some 2).
  cbn [Js.or_default Z.eqb Z.ltb Z.gtb Z.compare Pos.compare Pos.compare_cont
       Z.sub Z.mul Z.add Z.opp Z.pos_sub Pos.mul Pos.add Pos.pred_double
       orb no_list_errors countErr rowsErr db_call json status].
  rewrite Hc.
  unfold getTransactionsQuery. fold ranked.
  change (Js.ceil_div 15 2) with 8.
  change (Z.to_nat 2) with 2%nat.
  split; [reflexivity |]. split; [reflexivity |].
  split; [rewrite length_take, length_drop, Hlen; reflexivity |].
  split; [rewrite length_drop, Hlen; reflexivity |].
  reflexivity.
Qed.

Example page_2_limit_10_of_fifteen (c : string) :
  let r := getTransactions no_list_errors "1" (Some "2") (Some "10") (fifteen c) in
  map tx_id (rows_of r) = [13; 12]
  /\ map tx_id (drop 10 (order_by_date_id_desc (transactions_of "1" (fifteen c))))
     = [5; 4; 3; 2; 1].
Proof. cbn zeta. split; vm_compute; reflexivity. Qed.

(** C4 (the code at parameters out of range).  [?page=1&limit=500],
    [?page=1&limit=0] and [?page=0&limit=10] are all answered 200: the
    first two with [limit = 1], the last one as page 1 with [limit = 10]. *)
Theorem out_of_range_parameters_accepted id st :
  let r500 := getTransactions no_list_errors id (Some "1") (Some "500") st in
  let r0 := getTransactions no_list_errors id (Some "1") (Some "0") st in
  let p0 := getTransactions no_list_errors id (Some "0") (Some "10") st in
  (status r500 = 200 /\ limit <$> pagination_of r500 = Some 1)
  /\ (status r0 = 200 /\ limit <$> pagination_of r0 = Some 1)
  /\ (status p0 = 200 /\ currentPage <$> pagination_of p0 = Some 1
      /\ limit <$> pagination_of p0 = Some 10).
Proof.
  cbn zeta. repeat split; reflexivity.
Qed.

(** ** Reading an account *)

Section ReadProperties.

Variable StringToNumber : string -> Js.Num.

(** A request that is not a POST leaves the store as it is. *)
Lemma serve_read r st : is_write r = false -> fst (serve StringToNumber r st) = st.
Proof. destruct r; cbn; [reflexivity .. | discriminate]. Qed.

Lemma serve_all_reads rs st :
  Forall (λ r, is_write r = false) rs -> serve_all StringToNumber rs st = st.
Proof.
  intros H. revert st.
  induction H as [| r rs Hr _ IH]; intros st; [reflexivity |].
  unfold serve_all in *. cbn [foldl]. rewrite (serve_read r st Hr). apply IH.
Qed.

(** C8.  Two [GET /api/accounts/:id] of the same id, with any requests
    other than POSTs served in between, are answered alike (the driver
    reporting the same outcome), and the store is what it was. *)
Theorem getAccount_idempotent err id (between : list Request) st :
  Forall (λ r, is_write r = false) between ->
  let first := serve StringToNumber (GetAccount err id) st in
  let st' := serve_all StringToNumber between (fst first) in
  let second := serve StringToNumber (GetAccount err id) st' in
  snd second = snd first /\ fst second = st.
Proof.
  intros H. cbn [serve fst snd]. rewrite (serve_all_reads between st H).
  split; reflexivity.
Qed.

End ReadProperties.

(** ** The theorems at concrete inputs *)

Lemma insufficient_funds_rejected_witness :
  fst (postTransaction Js.digits_to_number (no_errors 0) "1" withdrawal_6000 seeded)
  = seeded
  /\ snd (postTransaction Js.digits_to_number (no_errors 0) "1" withdrawal_6000 seeded)
     = [InsufficientFundsError].
Proof.
  pose proof (insufficient_funds_rejected Js.digits_to_number (no_errors 0) "1"
                withdrawal_6000 seeded account_1 eq_refl eq_refl eq_refl)
    as (Hst & _ & _ & Hout).
  split; [exact Hst | exact (Hout eq_refl)].
Defined.


Example six_requests_replayed :
  replay Js.digits_to_number "1"
    (snd (run Js.digits_to_number six_requests (Running seeded)))
    (SqlNumber (Js.Fin 5000))
  = SqlNumber (Js.Fin 5300).
Proof. vm_compute. reflexivity. Qed.

(** After the POST that the middleware answers, the process has exited. *)
Example seven_requests_exit :
  fst (run Js.digits_to_number seven_requests (Running seeded)) = Exited.
Proof. vm_compute. reflexivity. Qed.


Lemma created_response_witness :
  exists nb,
    json created_5500 = JsonCreated "Success"
      "Transaction created and balance updated successfully."
      (Js.VStr "DEPOSIT") (Js.VNum (Js.Fin 500)) nb
    /\ accounts (fst (postTransaction Js.digits_to_number (no_errors 0) "1"
                        deposit_500 seeded)) !! "1"
       = Some (set_balance (bind (Js.VNum nb)) account_1).
Proof.
  destruct (created_response Js.digits_to_number (no_errors 0) "1" deposit_500 seeded
              account_1 created_5500 eq_refl eq_refl eq_refl)
    as (nb & _ & _ & Hjson & Hacc & _).
  exists nb. split; [exact Hjson | exact Hacc].
Defined.

Lemma update_failure_keeps_row_witness :
  fst (postTransaction Js.digits_to_number update_fails "1" deposit_500 seeded)
  = seeded_with_row
  /\ accounts seeded_with_row !! "1" = Some account_1
  /\ exists r,
       snd (postTransaction Js.digits_to_number update_fails "1" deposit_500 seeded) = [r]
       /\ status r = 500.
Proof.
  pose proof (update_failure_keeps_row Js.digits_to_number update_fails "1" deposit_500
                seeded account_1 seeded_with_row "disk I/O error"
                eq_refl eq_refl eq_refl eq_refl eq_refl)
    as (Hst & _ & Hacc & _ & Hout).
  split; [exact Hst |]. split; [exact Hacc | exact (Hout eq_refl)].
Defined.


Lemma page_2_limit_10_of_15_witness :
  let r := getTransactions no_list_errors "1" (Some "2") (Some "10")
             (fifteen "2024-01-01T00:00:00.000Z") in
  status r = 200 /\ length (rows_of r) = 2%nat.
Proof.
  pose proof (page_2_limit_10_of_15 "1" (fifteen "2024-01-01T00:00:00.000Z") eq_refl)
    as (Hst & _ & Hlen & _).
  split; [exact Hst | exact Hlen].
Defined.

Lemma getAccount_idempotent_witness :
  let first := serve Js.digits_to_number (GetAccount None "1") seeded in
  let st' := serve_all Js.digits_to_number two_reads (fst first) in
  let second := serve Js.digits_to_number (GetAccount None "1") st' in
  snd second = snd first /\ fst second = seeded.
Proof.
  apply (getAccount_idempotent Js.digits_to_number None "1" two_reads seeded).
  repeat constructor.
Defined.

(** * Further properties of the routes *)

(** ** The order of a listing *)

Lemma newer_asym a b : newer a b = true -> newer b a = false.
Proof. unfold newer. lia. Qed.

Lemma not_older_trans a b c : not_older a b -> not_older b c -> not_older a c.
Proof. unfold not_older, newer. lia. Qed.

Lemma insert_by_date_perm t l : insert_by_date t l ≡ₚ t :: l.
Proof.
  induction l as [| h r IH]; cbn; [reflexivity |].
  destruct (newer h t); [| reflexivity].
  rewrite IH. apply Permutation_swap.
Qed.

Lemma insert_by_date_sorted t l :
  StronglySorted not_older l -> StronglySorted not_older (insert_by_date t l).
Proof.
  induction l as [| h r IH]; cbn; intros Hs.
  - repeat constructor.
  - apply StronglySorted_cons in Hs as [Hh Hr].
    destruct (newer h t) eqn:Hnew.
    + apply StronglySorted_cons. split; [| exact (IH Hr)].
      rewrite insert_by_date_perm. constructor; [| exact Hh].
      exact (newer_asym _ _ Hnew).
    + apply StronglySorted_cons. split.
      * constructor; [exact Hnew |].
        eapply Forall_impl; [exact Hh |].
        intros x Hx. exact (not_older_trans t h x Hnew Hx).
      * apply StronglySorted_cons. split; assumption.
Qed.

(** [ORDER BY date DESC, id DESC] rearranges the rows it is given... *)
Lemma order_by_date_id_desc_perm l : order_by_date_id_desc l ≡ₚ l.
Proof.
  induction l as [| t l IH]; cbn; [reflexivity |].
  rewrite insert_by_date_perm, IH. reflexivity.
Qed.

(** ... so that no row stands before a newer one. *)
Lemma order_by_date_id_desc_sorted l :
  StronglySorted not_older (order_by_date_id_desc l).
Proof.
  induction l as [| t l IH]; cbn; [constructor |].
  apply insert_by_date_sorted, IH.
Qed.

(** X1.  The rows of a 200 answer of the listing are rows of the store
    that belong to the requested account, stand in the order date
    descending then id descending (no row before a newer one), and are at
    most [limit] many. *)
Theorem listing_rows drv id q_page q_limit st :
  status (getTransactions drv id q_page q_limit st) = 200 ->
  let r := getTransactions drv id q_page q_limit st in
  Forall (λ t, t ∈ transactions st /\ tx_accountId t = id) (rows_of r)
  /\ StronglySorted not_older (rows_of r)
  /\ exists p, pagination_of r = Some p
               /\ Z.of_nat (length (rows_of r)) <= limit p.
Proof.
  intros Hst r. subst r.
  destruct (getTransactions_ok drv id q_page q_limit st Hst) as (Hp & Hl & ->).
  unfold rows_of, pagination_of. cbn [json]. unfold getTransactionsQuery.
  set (ranked := order_by_date_id_desc (transactions_of id st)).
  split; [| split].
  - apply Forall_forall. intros t Ht.
    apply subseteq_take, subseteq_drop in Ht.
    subst ranked. rewrite order_by_date_id_desc_perm in Ht.
    unfold transactions_of in Ht. apply list_elem_of_filter in Ht as [Hid Hin].
    split; assumption.
  - pose proof (order_by_date_id_desc_sorted (transactions_of id st)) as Hs.
    fold ranked in Hs.
    rewrite <- (take_drop (Z.to_nat ((Js.or_default (Js.parseInt_param q_page) 1 - 1)
                                      * Js.or_default (Js.parseInt_param q_page) 10))
                          ranked) in Hs.
    apply StronglySorted_app_1_r in Hs.
    rewrite <- (take_drop (Z.to_nat (Js.or_default (Js.parseInt_param q_page) 10)) (drop _ ranked)) in Hs.
    apply StronglySorted_app_1_l in Hs. exact Hs.
  - eexists. split; [reflexivity |]. cbn [limit].
    rewrite length_take. lia.
Qed.

(** X2.  [ORDER BY date DESC, id DESC], as the listing applies it, returns
    a rearrangement of the rows it is given in which no row stands before
    a newer one. *)
Theorem order_by_date_id_desc_sorted_perm l :
  order_by_date_id_desc l ≡ₚ l
  /\ StronglySorted not_older (order_by_date_id_desc l).
Proof.
  split; [apply order_by_date_id_desc_perm | apply order_by_date_id_desc_sorted].
Qed.

(** The number of rows [LIMIT ? OFFSET ?] leaves. *)
Lemma getTransactionsQuery_length id lim off st :
  0 <= lim -> 0 <= off ->
  Z.of_nat (length (getTransactionsQuery id lim off st))
  = Z.min lim (Z.max 0 (countQuery id st - off)).
Proof.
  intros Hl Ho. unfold getTransactionsQuery, countQuery.
  rewrite length_take, length_drop, order_by_date_id_desc_length. lia.
Qed.

(** X3.  The size of a page.  A 200 answer of the listing holds
    [min(limit, max(0, totalTransactions - (currentPage - 1) * limit))]
    rows: a full page of [limit] rows whenever [hasNextPage] is true, and
    at least one row on the last page ([currentPage = totalPages]). *)
Theorem listing_page_size drv id q_page q_limit st :
  status (getTransactions drv id q_page q_limit st) = 200 ->
  let r := getTransactions drv id q_page q_limit st in
  exists p,
    pagination_of r = Some p
    /\ Z.of_nat (length (rows_of r))
       = Z.min (limit p)
               (Z.max 0 (totalTransactions p - (currentPage p - 1) * limit p))
    /\ (hasNextPage p = true -> Z.of_nat (length (rows_of r)) = limit p)
    /\ (currentPage p = totalPages p -> 1 <= Z.of_nat (length (rows_of r))).
Proof.
  intros Hst r. subst r.
  destruct (getTransactions_ok drv id q_page q_limit st Hst) as (Hp & Hl & ->).
  unfold rows_of, pagination_of. cbn [json].
  eexists. split; [reflexivity |].
  cbn [limit totalTransactions currentPage hasNextPage totalPages].
  set (page := Js.or_default (Js.parseInt_param q_page) 1) in *.
  set (lim := Js.or_default (Js.parseInt_param q_page) 10) in *.
  rewrite getTransactionsQuery_length by nia.
  pose proof (ceil_div_bounds (countQuery id st) lim ltac:(lia)) as Hc.
  split; [reflexivity |]. split.
  - intros Hnext. apply Z.ltb_lt in Hnext. nia.
  - intros Hlast. rewrite <- Hlast in Hc. nia.
Qed.

(** X4.  A page past the last one.  With valid pagination ([page >= 1]
    and [limit] from 1 to 100, as the handler computes them) and no error
    of the driver, when the page is greater than [totalPages] the listing
    still answers 200, with no row and with [hasNextPage] false. *)
Theorem listing_past_the_end drv id q_page q_limit st :
  let page := Js.or_default (Js.parseInt_param q_page) 1 in
  let lim := Js.or_default (Js.parseInt_param q_page) 10 in
  countErr drv = None ->
  rowsErr drv = None ->
  1 <= page ->
  1 <= lim <= 100 ->
  Js.ceil_div (countQuery id st) lim < page ->
  let r := getTransactions drv id q_page q_limit st in
  status r = 200
  /\ rows_of r = []
  /\ exists p,
       pagination_of r = Some p
       /\ currentPage p = page
       /\ totalPages p = Js.ceil_div (countQuery id st) lim
       /\ hasNextPage p = false.
Proof.
  intros page lim Hc Hr Hp Hl Hpast r. subst r.
  unfold getTransactions. fold page lim.
  replace ((page <? 1) || (lim <? 1) || (lim >? 100)) with false by lia.
  rewrite Hc, Hr. cbn [db_call status]. unfold rows_of, pagination_of. cbn [json].
  split; [reflexivity |]. split.
  - pose proof (ceil_div_bounds (countQuery id st) lim ltac:(lia)) as Hb.
    pose proof (getTransactionsQuery_length id lim ((page - 1) * lim) st
                  ltac:(lia) ltac:(nia)) as Hlen.
    apply length_zero_iff_nil. nia.
  - eexists. split; [reflexivity |]. cbn [currentPage totalPages hasNextPage].
    split; [reflexivity |]. split; [reflexivity |]. apply Z.ltb_ge. lia.
Qed.

(** X5.  The listing answers 400 exactly when [req.query.page] parses to a
    negative integer or to an integer above 100, whatever [req.query.limit]
    holds; a page that is absent, not a number, or 0 is served with the
    defaults, page 1 and [limit] 10. *)
Theorem listing_validation drv id q_page q_limit st :
  let r := getTransactions drv id q_page q_limit st in
  (r = ValidationError
   <-> exists n, Js.parseInt_param q_page = Some n /\ (n < 0 \/ 100 < n))
  /\ (Js.parseInt_param q_page = None \/ Js.parseInt_param q_page = Some 0 ->
      countErr drv = None -> rowsErr drv = None ->
      status r = 200
      /\ exists p, pagination_of r = Some p /\ currentPage p = 1 /\ limit p = 10).
Proof.
  cbn zeta. split; [exact (getTransactions_400 drv id q_page q_limit st) |].
  intros Hparse Hc Hr. unfold getTransactions.
  assert (Hp : Js.or_default (Js.parseInt_param q_page) 1 = 1)
    by (destruct Hparse as [-> | ->]; reflexivity).
  assert (Hl : Js.or_default (Js.parseInt_param q_page) 10 = 10)
    by (destruct Hparse as [-> | ->]; reflexivity).
  rewrite Hp, Hl, Hc, Hr.
  split; [reflexivity |]. eexists. split; [reflexivity |]. split; reflexivity.
Qed.

(** White space of more than one byte is skipped as well: U+00A0 before
    "101" is read as 101, and answered 400. *)
Example page_nbsp_101 (id : string) (st : Store) :
  let page := String (ascii_of_nat 194) (String (ascii_of_nat 160) "101") in
  Js.parseInt page = Some 101
  /\ getTransactions no_list_errors id (Some page) None st = ValidationError.
Proof. cbn zeta. split; reflexivity. Qed.

(** ** What a POST does to the store *)

Section StoreProperties.

Variable StringToNumber : string -> Js.Num.

(** The effect of a POST on the store. *)
Lemma postTransaction_effect drv id b st :
  let st' := fst (postTransaction StringToNumber drv id b st) in
  st' = st
  \/ exists acc,
       accounts st !! id = Some acc
       /\ check_type (bind (type b)) = true
       /\ Js.lt (newBalance StringToNumber (balance acc) b) (Js.Fin 0) = false
       /\ transactions st' = transactions st ++ [inserted_row drv id b st]
       /\ seq st' = seq st + 1
       /\ (accounts st' = accounts st
           \/ accounts st' =
                <[id := set_balance
                          (bind (Js.VNum (newBalance StringToNumber (balance acc) b)))
                          acc]> (accounts st)).
Proof.
  cbn zeta. rewrite postTransaction_unfold. cbn [fst].
  unfold createTransaction.
  destruct (accounts st !! id) as [acc |] eqn:Hacc;
    destruct (getErr drv); cbn [db_call fmap option_fmap option_map];
    try (left; reflexivity).
  destruct (Js.lt _ _) eqn:Hlt; [left; reflexivity |].
  destruct (transactionsInsertQuery _ _ _ _ _ _ _) as [st1 |] eqn:Hins;
    [| left; reflexivity].
  destruct (transactionsInsertQuery_ok _ _ _ _ _ _ _ _ Hins) as (Ha & Ht & Hck).
  assert (Hseq : seq st1 = seq st + 1).
  { unfold transactionsInsertQuery, db_call in Hins. rewrite Hck in Hins.
    destruct (insertErr drv); [discriminate |]. injection Hins as <-. reflexivity. }
  right. exists acc. split; [reflexivity |]. split; [exact Hck |].
  split; [exact Hlt |].
  unfold updateBalanceQuery. destruct (updateErr drv); cbn [db_call fst].
  - split; [exact Ht |]. split; [exact Hseq |]. left. exact Ha.
  - cbn [transactions seq accounts]. split; [exact Ht |]. split; [exact Hseq |].
    right. rewrite Ha. apply map_eq. intros j.
    rewrite lookup_alter, lookup_insert.
    destruct (decide (id = j)) as [<- |]; [rewrite Hacc |]; reflexivity.
Qed.

(** X6.  The effect of a POST on the store, whatever its body and the
    driver's errors.  Either the store is left as it was, or the account
    exists, the computed new balance is not negative, exactly one row is
    added at the end of [transactions] (with the next rowid, for that
    account, with a type the CHECK admits) and the accounts table is either
    untouched or changed in the balance of that account only, set to the
    new balance. *)
Theorem post_effect drv id b st :
  let st' := fst (postTransaction StringToNumber drv id b st) in
  st' = st
  \/ exists acc,
       accounts st !! id = Some acc
       /\ check_type (bind (type b)) = true
       /\ Js.lt (newBalance StringToNumber (balance acc) b) (Js.Fin 0) = false
       /\ transactions st' = transactions st ++ [inserted_row drv id b st]
       /\ seq st' = seq st + 1
       /\ (accounts st' = accounts st
           \/ accounts st' =
                <[id := set_balance
                          (bind (Js.VNum (newBalance StringToNumber (balance acc) b)))
                          acc]> (accounts st)).
Proof. exact (postTransaction_effect drv id b st). Qed.

(** ** Invariants of the store under any sequence of requests *)

Lemma serve_effect r st :
  fst (serve StringToNumber r st) = st
  \/ exists drv id b, r = PostTransaction drv id b.
Proof. destruct r; cbn; eauto. Qed.

(** A relation between stores that holds across each request holds across
    any sequence of them. *)
Lemma serve_all_rel (R : Store -> Store -> Prop) :
  (forall st, R st st) ->
  (forall st1 st2 st3, R st1 st2 -> R st2 st3 -> R st1 st3) ->
  (forall drv id b st, R st (fst (postTransaction StringToNumber drv id b st))) ->
  forall rs st, R st (serve_all StringToNumber rs st).
Proof.
  intros Hrefl Htrans Hpost rs.
  induction rs as [| r rs IH]; intros st; [apply Hrefl |].
  unfold serve_all in *. cbn [foldl].
  eapply Htrans; [| apply IH].
  destruct r; cbn [serve fst]; try apply Hrefl. apply Hpost.
Qed.

Lemma same_but_balance_refl a : same_but_balance a a.
Proof. repeat split. Qed.

Lemma same_but_balance_trans a b c :
  same_but_balance a b -> same_but_balance b c -> same_but_balance a c.
Proof. unfold same_but_balance. intuition congruence. Qed.

Lemma same_accounts_refl st : same_accounts st st.
Proof. intros i. destruct (accounts st !! i); [apply same_but_balance_refl | exact I]. Qed.

Lemma same_accounts_trans st1 st2 st3 :
  same_accounts st1 st2 -> same_accounts st2 st3 -> same_accounts st1 st3.
Proof.
  intros H12 H23 i. specialize (H12 i). specialize (H23 i).
  destruct (accounts st1 !! i), (accounts st2 !! i), (accounts st3 !! i);
    try contradiction; try exact I.
  eapply same_but_balance_trans; eassumption.
Qed.

Lemma same_accounts_post drv id b st :
  same_accounts st (fst (postTransaction StringToNumber drv id b st)).
Proof.
  destruct (postTransaction_effect drv id b st) as [-> | (acc & Hacc & _ & _ & _ & _ & Ha)];
    [apply same_accounts_refl |].
  intros i. destruct Ha as [-> | ->].
  - destruct (accounts st !! i); [apply same_but_balance_refl | exact I].
  - rewrite lookup_insert. destruct (decide (id = i)) as [<- |].
    + rewrite Hacc. repeat split.
    + destruct (accounts st !! i); [apply same_but_balance_refl | exact I].
Qed.

Lemma same_accounts_serve_all rs st :
  same_accounts st (serve_all StringToNumber rs st).
Proof.
  apply serve_all_rel;
    [apply same_accounts_refl | apply same_accounts_trans | apply same_accounts_post].
Qed.

(** X7.  No request creates or deletes an account or changes anything of
    an account but its balance.  After any sequence of requests, as long
    as the process runs, [GET /api/accounts/:id] is answered 404 for an id
    that had no account, and for an id that had one it is answered 200 with
    a row that differs from the initial one at most in [balance]; when the
    process has exited (after a POST answered twice), it gets no answer. *)
Theorem accounts_are_kept rs st i :
  let get := serve_process StringToNumber (GetAccount None i) in
  match fst (run StringToNumber rs (Running st)) with
  | Running st' =>
      match accounts st !! i with
      | Some a =>
          exists a',
            snd (get (Running st'))
              = Some {| status := 200; json := JsonAccount a' |}
            /\ same_but_balance a a'
      | None =>
          snd (get (Running st'))
            = Some {| status := 404; json := JsonError "Account not found" |}
      end
  | Exited => snd (get Exited) = None
  end.
Proof.
  cbn zeta.
  destruct (fst (run StringToNumber rs (Running st))) as [st' |] eqn:Hrun;
    [| reflexivity].
  apply run_running in Hrun. subst st'.
  pose proof (same_accounts_serve_all rs st i) as H.
  cbn [serve_process serve snd received head]. unfold getAccount. cbn [db_call].
  destruct (accounts st !! i) as [a |],
           (accounts (serve_all StringToNumber rs st) !! i) as [a' |];
    try contradiction; [| reflexivity].
  exists a'. split; [reflexivity | exact H].
Qed.

Lemma transactions_prefix_serve_all rs st :
  transactions st `prefix_of` transactions (serve_all StringToNumber rs st).
Proof.
  apply (serve_all_rel (λ s s', transactions s `prefix_of` transactions s')).
  - reflexivity.
  - intros s1 s2 s3 H12 H23. etrans; eassumption.
  - intros drv id b s.
    destruct (postTransaction_effect drv id b s) as [-> | (acc & _ & _ & _ & -> & _)];
      [reflexivity | apply prefix_app_r; reflexivity].
Qed.

(** X8.  The transactions table only grows at its end: after any sequence
    of requests the rows that were there are still there, unchanged and
    in the same order, before the new ones; so the number of transactions
    of an account never goes down. *)
Theorem transactions_are_kept rs st A :
  let st' := serve_all StringToNumber rs st in
  transactions st `prefix_of` transactions st'
  /\ countQuery A st <= countQuery A st'.
Proof.
  cbn zeta. pose proof (transactions_prefix_serve_all rs st) as [k Hk].
  split; [exists k; exact Hk |].
  unfold countQuery, transactions_of. rewrite Hk, filter_app, length_app. lia.
Qed.

(** An invariant kept by each POST is kept by any sequence of requests. *)
Lemma serve_all_inv (I : Store -> Prop) :
  (forall drv id b st, I st -> I (fst (postTransaction StringToNumber drv id b st))) ->
  forall rs st, I st -> I (serve_all StringToNumber rs st).
Proof.
  intros Hpost rs st.
  apply (serve_all_rel (λ s s', I s -> I s')); auto.
Qed.

Lemma ids_in_sequence_post drv id b st :
  ids_in_sequence st ->
  ids_in_sequence (fst (postTransaction StringToNumber drv id b st)).
Proof.
  intros [Hs Hle].
  destruct (postTransaction_effect drv id b st)
    as [-> | (acc & _ & _ & _ & Ht & Hseq & _)]; [split; assumption |].
  unfold ids_in_sequence. rewrite Ht, Hseq, map_app. split.
  - apply StronglySorted_app. split; [| split; [exact Hs | repeat constructor]].
    intros x y Hx Hy. apply list_elem_of_fmap in Hx as (t & -> & Ht').
    apply list_elem_of_singleton in Hy as ->. cbn.
    rewrite Forall_forall in Hle. specialize (Hle t Ht'). lia.
  - apply Forall_app. split.
    + eapply Forall_impl; [exact Hle |]. cbn. intros; lia.
    + repeat constructor. cbn. lia.
Qed.

(** X9.  Rowids.  If the rowids of the transactions are strictly
    increasing along the table and none is above the AUTOINCREMENT
    counter, this is still so after any sequence of requests: every new
    row gets a rowid above all the earlier ones, and no two rows share
    one. *)
Theorem ids_stay_in_sequence rs st :
  ids_in_sequence st ->
  let st' := serve_all StringToNumber rs st in
  ids_in_sequence st' /\ NoDup (map tx_id (transactions st')).
Proof.
  intros H. cbn zeta.
  pose proof (serve_all_inv ids_in_sequence ids_in_sequence_post rs st H) as H'.
  split; [exact H' |].
  destruct H' as [Hs _]. revert Hs.
  generalize (map tx_id (transactions (serve_all StringToNumber rs st))).
  intros l Hs. induction Hs as [| x l _ IH Hx]; constructor; [| exact IH].
  intros Hin. rewrite Forall_forall in Hx. specialize (Hx x Hin). lia.
Qed.

Lemma rows_valid_post drv id b st :
  rows_valid st -> rows_valid (fst (postTransaction StringToNumber drv id b st)).
Proof.
  intros Hv.
  destruct (postTransaction_effect drv id b st)
    as [-> | (acc & Hacc & Hck & _ & Ht & _ & Ha)]; [exact Hv |].
  assert (Hkeep : forall j, is_Some (accounts st !! j) ->
            is_Some (accounts (fst (postTransaction StringToNumber drv id b st)) !! j)).
  { intros j Hj. destruct Ha as [-> | ->]; [exact Hj |].
    apply lookup_insert_is_Some'. right. exact Hj. }
  unfold rows_valid in *. rewrite Ht. apply Forall_app. split.
  - eapply Forall_impl; [exact Hv |]. intros t [Hsome Hty].
    split; [apply Hkeep; exact Hsome | exact Hty].
  - repeat constructor; [| exact Hck].
    apply Hkeep. cbn [inserted_row tx_accountId]. rewrite Hacc. eauto.
Qed.

(** X10.  Rows stay valid.  If every transaction refers to an account of
    the store and has a type the CHECK constraint admits, this is still so
    after any sequence of requests, whatever their bodies: a row is
    inserted only for an account that was found. *)
Theorem rows_stay_valid rs st :
  rows_valid st -> rows_valid (serve_all StringToNumber rs st).
Proof. apply serve_all_inv. apply rows_valid_post. Qed.

Lemma no_negative_balance_post drv id b st :
  no_negative_balance StringToNumber st ->
  no_negative_balance StringToNumber (fst (postTransaction StringToNumber drv id b st)).
Proof.
  intros Hn.
  destruct (postTransaction_effect drv id b st)
    as [-> | (acc & Hacc & _ & Hlt & _ & _ & Ha)]; [exact Hn |].
  intros i a. destruct Ha as [-> | ->]; [apply Hn |].
  rewrite lookup_insert. destruct (decide (id = i)) as [<- |]; [| apply Hn].
  intros [= <-]. cbn [balance set_balance].
  destruct (newBalance StringToNumber (balance acc) b); try exact Hlt; reflexivity.
Qed.

(** X11.  No overdraft.  If no balance of the store reads as a negative
    number, none does after any sequence of requests, whatever their
    bodies and the errors of the driver. *)
Theorem balances_stay_non_negative rs st :
  no_negative_balance StringToNumber st ->
  no_negative_balance StringToNumber (serve_all StringToNumber rs st).
Proof. apply serve_all_inv. apply no_negative_balance_post. Qed.

(** ** Errors of a POST *)

(** X12.  An error other than the failed balance update writes nothing.
    When the response of the handler is neither the 201 nor the 500
    "Transaction created but failed to update balance.", the store after
    the POST is the store before it. *)
Theorem post_error_leaves_store drv id b st r :
  last (snd (postTransaction StringToNumber drv id b st)) = Some r ->
  status r <> 201 ->
  is_update_failure r = false ->
  fst (postTransaction StringToNumber drv id b st) = st.
Proof.
  rewrite postTransaction_unfold. cbn [fst snd]. rewrite last_snoc. intros [= <-].
  unfold createTransaction.
  destruct (db_call (getErr drv) (balance <$> accounts st !! id)) as [[current |] | ?];
    try reflexivity.
  destruct (Js.lt _ _); [reflexivity |].
  destruct (transactionsInsertQuery _ _ _ _ _ _ _) as [st1 |]; [| reflexivity].
  destruct (updateBalanceQuery _ _ _ _); cbn [fst snd].
  - intros H. contradiction H. reflexivity.
  - intros _ H. discriminate H.
Qed.

(** X13.  The handler answers 404 "Account not found." exactly when the
    driver reports no error to the lookup and the store has no account of
    the requested id, whatever the body. *)
Theorem post_not_found drv id b st :
  last (snd (postTransaction StringToNumber drv id b st)) = Some NotFoundError
  <-> getErr drv = None /\ accounts st !! id = None.
Proof.
  rewrite postTransaction_unfold. cbn [snd]. rewrite last_snoc.
  unfold createTransaction.
  destruct (getErr drv), (accounts st !! id) as [acc |];
    cbn [db_call fmap option_fmap option_map snd].
  - split; [discriminate | intros [H _]; discriminate H].
  - split; [discriminate | intros [H _]; discriminate H].
  - split; [| intros [_ H]; discriminate H].
    destruct (Js.lt _ _); [discriminate |].
    destruct (transactionsInsertQuery _ _ _ _ _ _ _); [| discriminate].
    destruct (updateBalanceQuery _ _ _ _); discriminate.
  - split; auto.
Qed.

(** ** Counting the transactions of an account *)

Lemma countQuery_snoc A st st1 t :
  transactions st1 = transactions st ++ [t] ->
  countQuery A st1
  = countQuery A st + (if bool_decide (tx_accountId t = A) then 1 else 0).
Proof.
  intros Ht. unfold countQuery, transactions_of.
  rewrite Ht, filter_app, length_app.
  destruct (bool_decide_reflect (tx_accountId t = A)) as [H | H].
  - rewrite filter_cons_True by exact H. cbn. lia.
  - rewrite filter_cons_False by exact H. cbn. lia.
Qed.

(** One POST of a client's transaction: the count of [A] moves by one
    exactly when the POST is recorded for [A]. *)
Lemma client_post_count drv id t A st :
  let out := postTransaction StringToNumber drv id (body_of t) st in
  let e := (PostTransaction drv id (body_of t), received (snd out)) in
  countQuery A (fst out) = countQuery A st + (if recorded A e then 1 else 0).
Proof.
  cbn zeta. rewrite received_post, postTransaction_unfold. cbn [fst snd recorded].
  destruct t as [ty a d].
  unfold createTransaction.
  destruct (db_call (getErr drv) (balance <$> accounts st !! id)) as [[current |] | ?];
    cbn [fst snd].
  2,3: destruct (reject_condition _ _); cbn; rewrite andb_false_r; lia.
  destruct (Js.lt _ _); cbn [fst snd].
  { destruct (reject_condition _ _); cbn; rewrite andb_false_r; lia. }
  destruct (transactionsInsertQuery _ _ _ _ _ _ _) as [st1 |] eqn:Hins; cbn [fst snd].
  2:{ destruct (reject_condition _ _); cbn; rewrite andb_false_r; lia. }
  destruct (transactionsInsertQuery_ok _ _ _ _ _ _ _ _ Hins) as (_ & Ht & Hck).
  assert (Hrej : reject_condition StringToNumber
                   (body_of {| t_type := ty; t_amount := a; t_description := d |})
                 = false)
    by (destruct ty as [[| |] |]; [reflexivity .. | discriminate Hck]).
  rewrite Hrej.
  unfold updateBalanceQuery. destruct (updateErr drv); cbn [db_call fst snd].
  - rewrite (countQuery_snoc A st st1 _ Ht). cbn. rewrite andb_true_r. reflexivity.
  - match goal with
    | |- countQuery A ?s = _ => change (countQuery A s) with (countQuery A st1)
    end.
    rewrite (countQuery_snoc A st st1 _ Ht). cbn. rewrite andb_true_r. reflexivity.
Qed.

(** X14.  Serve any sequence of POSTs made from the client's transactions.
    The number of transactions of an account [A] afterwards is the number
    before plus the number of POSTs to [A] answered by 201 or by the 500 of
    a failed balance update: each of these, and no other request, records
    one row for [A]. *)
Theorem count_is_recorded (posts : list (PostDriver * string * Transaction))
    (A : string) (st : Store) :
  let out := serve_trace StringToNumber (map client_post posts) st in
  countQuery A (fst out) = countQuery A st + recorded_count A (snd out).
Proof.
  revert st. unfold recorded_count.
  induction posts as [| [[drv id] t] posts IH]; intros st; [cbn; lia |].
  pose proof (client_post_count drv id t A st) as Hstep. cbn zeta in Hstep.
  cbn [map client_post serve_trace serve].
  destruct (postTransaction StringToNumber drv id (body_of t) st) as [st1 out1].
  cbn [fst snd] in Hstep.
  specialize (IH st1). cbn zeta in IH.
  destruct (serve_trace StringToNumber (map client_post posts) st1) as [st2 tr].
  cbn [fst snd] in IH |- *. rewrite IH, Hstep. cbn [List.filter].
  destruct (recorded A _); cbn [length]; lia.
Qed.

(** ** The middleware *)

(** X15.  What [validateCreateTransaction] answers with its 400: exactly
    the bodies whose [type] and [description] are both falsy and whose
    [amount] is [null], [false], a number equal to zero, or the empty
    string when that converts to a number not above zero.  A body with no
    [amount], or with any non-zero number as [amount], is never answered
    by the middleware. *)
Theorem reject_condition_iff b :
  reject_condition StringToNumber b = true
  <-> Js.truthy (type b) = false
      /\ Js.truthy (description b) = false
      /\ (amount b = Js.VNull
          \/ amount b = Js.VBool false
          \/ (exists q, amount b = Js.VNum (Js.Fin q) /\ (q == 0)%Q)
          \/ (amount b = Js.VStr ""
              /\ Js.le (StringToNumber "") (Js.Fin 0) = true)).
Proof.
  unfold reject_condition.
  rewrite !andb_true_iff, !negb_true_iff.
  split.
  - intros [[[Hty Ham] Hle] Hde]. split; [exact Hty |]. split; [exact Hde |].
    destruct (amount b) as [| | [|] | [| | q |] | s]; cbn in Ham, Hle;
      try discriminate; auto.
    + right. right. left. exists q. split; [reflexivity |].
      apply negb_false_iff, Qeq_bool_iff in Ham. exact Ham.
    + right. right. right.
      apply negb_false_iff, String.eqb_eq in Ham. subst s. auto.
  - intros (Hty & Hde & Ham). repeat split; try assumption.
    + destruct Ham as [-> | [-> | [(q & -> & Hq) | [-> _]]]]; try reflexivity.
      cbn. apply negb_false_iff, Qeq_bool_iff. exact Hq.
    + destruct Ham as [-> | [-> | [(q & -> & Hq) | [-> Hle]]]];
        try reflexivity; [| exact Hle].
      cbn. apply Qle_bool_iff. rewrite Hq. apply Qle_refl.
Qed.

End StoreProperties.

(** ** Numbers in the query string *)








(** ** The client's calls *)



(** ** The form and the server *)

Section ClientProperties.

Variable StringToNumber : string -> Js.Num.

(** The balance the component reads when it holds the row [acc]. *)
Lemma held_balance_found held accountId acc q0 :
  List.find (λ a, String.eqb (id a) accountId) held = Some acc ->
  balance acc = SqlNumber (Js.Fin q0) ->
  held_balance held accountId = Js.VNum (Js.Fin q0).
Proof. intros Hf Hb. unfold held_balance. rewrite Hf, Hb. reflexivity. Qed.

Lemma Qltb_false x y : Js.Qltb x y = false <-> (y <= x)%Q.
Proof.
  unfold Js.Qltb. rewrite negb_false_iff. apply Qle_bool_iff.
Qed.

Lemma Qltb_true x y : Js.Qltb x y = true <-> (x < y)%Q.
Proof.
  unfold Js.Qltb. rewrite negb_true_iff, <- not_true_iff_false, Qle_bool_iff.
  split; [apply Qnot_le_lt | apply Qlt_not_le].
Qed.

(** The new balance the server computes for a client's transaction on a
    finite balance. *)
Lemma newBalance_client q0 t :
  newBalance StringToNumber (SqlNumber (Js.Fin q0)) (body_of t)
  = Js.Fin (if String.eqb (type_name (t_type t)) "DEPOSIT"
            then q0 + t_amount t else q0 - t_amount t)%Q.
Proof. destruct t as [[[| |] |] a d]; reflexivity. Qed.


Lemma positive_amount a :
  (0 < a)%Q -> Qeq_bool a 0 = false /\ Qle_bool a 0 = false.
Proof.
  intros Ha. split; apply not_true_iff_false.
  - rewrite Qeq_bool_iff. lra.
  - rewrite Qle_bool_iff. lra.
Qed.

(** X20.  The form and the server agree on insufficient funds.  When the
    component holds the row the store has for the account, its balance is
    a finite number that is not negative, and the amount is positive, the
    form shows "Insufficient balance" exactly when the server would answer
    the same transaction with its insufficient-funds error. *)
Theorem insufficient_balance_agrees drv held accountId t st acc q0 :
  List.find (λ a, String.eqb (id a) accountId) held = Some acc ->
  accounts st !! accountId = Some acc ->
  balance acc = SqlNumber (Js.Fin q0) ->
  (0 <= q0)%Q ->
  (0 < t_amount t)%Q ->
  getErr drv = None ->
  (exists e,
     snd (handleCreateTransaction StringToNumber drv held accountId t st) = Refused e
     /\ amount_error e = "Insufficient balance")
  <-> snd (postTransaction StringToNumber drv accountId (body_of t) st)
      = [InsufficientFundsError].
Proof.
  intros Hheld Hacc Hbal Hq0 Ha Hget.
  destruct (positive_amount _ Ha) as [Hz Hle].
  assert (Hrej : reject_condition StringToNumber (body_of t) = false).
  { unfold reject_condition. cbn [body_of amount Js.truthy]. rewrite Hz.
    cbn. rewrite andb_false_r. reflexivity. }
  rewrite postTransaction_unfold, Hrej,
    (createTransaction_found _ _ _ _ _ _ Hacc Hget).
  cbn zeta. rewrite Hbal, newBalance_client. cbn [Js.lt option_list app snd].
  unfold handleCreateTransaction. cbn zeta. rewrite Hz, Hle.
  unfold exceeds_balance.
  rewrite (held_balance_found _ _ _ _ Hheld Hbal). cbn [Js.Number Js.lt].
  destruct (String.eqb (type_name (t_type t)) "DEPOSIT") eqn:Hdep; cbn [negb andb].
  - (* a DEPOSIT never exceeds, and q0 + a is not negative *)
    rewrite (proj2 (Qltb_false (q0 + t_amount t) 0)) by lra.
    split.
    + intros (e & He & Hmsg). exfalso.
      rewrite !orb_false_r in He.
      destruct (_ || _) in He.
      * cbn [snd] in He. injection He as <-. discriminate Hmsg.
      * destruct (api_createTransaction _ _ _ _ _) in He. discriminate He.
    + intros H. exfalso.
      destruct (transactionsInsertQuery _ _ _ _ _ _ _) as [st1 |] in H;
        [destruct (updateBalanceQuery _ _ _ _) in H |]; discriminate H.
  - destruct (Js.Qltb q0 (t_amount t)) eqn:Hex.
    + rewrite (proj2 (Qltb_true (q0 - t_amount t) 0))
        by (apply Qltb_true in Hex; lra).
      rewrite !orb_true_r. cbn [snd].
      split; [reflexivity |]. intros _. eexists. split; reflexivity.
    + rewrite (proj2 (Qltb_false (q0 - t_amount t) 0))
        by (apply Qltb_false in Hex; lra).
      split.
      * intros (e & He & Hmsg). exfalso.
        rewrite !orb_false_r in He.
        destruct (_ || _) in He.
        -- cbn [snd] in He. injection He as <-. discriminate Hmsg.
        -- destruct (api_createTransaction _ _ _ _ _) in He. discriminate He.
      * intros H. exfalso.
        destruct (transactionsInsertQuery _ _ _ _ _ _ _) as [st1 |] in H;
          [destruct (updateBalanceQuery _ _ _ _) in H |]; discriminate H.
Qed.

End ClientProperties.

(** ** The listing of an unknown account *)

Lemma transactions_of_unknown id st :
  rows_valid st -> accounts st !! id = None -> transactions_of id st = [].
Proof.
  intros Hv Hnone. unfold transactions_of, rows_valid in *.
  induction Hv as [| t l [Hsome _] _ IH]; [reflexivity |].
  rewrite filter_cons_False; [exact IH |].
  intros Heq. rewrite Heq, Hnone in Hsome. destruct Hsome as [? H]. discriminate H.
Qed.

(** X21.  The listing does not look the account up.  In a store whose
    rows all refer to accounts, asking for the transactions of an id that
    has no account is not answered 404: a 200 answer holds no row, with
    [totalTransactions] and [totalPages] at 0 and [hasNextPage] false. *)
Theorem listing_of_unknown_account drv id q_page q_limit st :
  rows_valid st ->
  accounts st !! id = None ->
  status (getTransactions drv id q_page q_limit st) = 200 ->
  let r := getTransactions drv id q_page q_limit st in
  rows_of r = []
  /\ exists p, pagination_of r = Some p
               /\ totalTransactions p = 0 /\ totalPages p = 0
               /\ hasNextPage p = false.
Proof.
  intros Hv Hnone Hst r. subst r.
  destruct (getTransactions_ok drv id q_page q_limit st Hst) as (Hp & Hl & ->).
  unfold rows_of, pagination_of. cbn [json].
  unfold getTransactionsQuery, countQuery.
  rewrite (transactions_of_unknown id st Hv Hnone). cbn [order_by_date_id_desc foldr length].
  split; [rewrite drop_nil; apply take_nil |].
  eexists. split; [reflexivity |].
  cbn [totalTransactions totalPages hasNextPage]. change (Z.of_nat 0) with 0.
  assert (Hc : Js.ceil_div 0 (Js.or_default (Js.parseInt_param q_page) 10) = 0).
  { rewrite ceil_div_eq by lia. apply Z.opp_inj. cbn. rewrite Z.opp_involutive.
    apply Z.div_0_l. lia. }
  rewrite Hc. split; [reflexivity |]. split; [reflexivity |]. apply Z.ltb_ge. lia.
Qed.

(** ** The further properties at concrete inputs *)

Lemma listing_rows_witness :
  let r := getTransactions no_list_errors "1" (Some "2") (Some "10") fifteen_store in
  Forall (λ t, t ∈ transactions fifteen_store /\ tx_accountId t = "1") (rows_of r)
  /\ StronglySorted not_older (rows_of r).
Proof.
  pose proof (listing_rows no_list_errors "1" (Some "2") (Some "10") fifteen_store eq_refl)
    as (Hin & Hs & _).
  split; [exact Hin | exact Hs].
Defined.

Lemma listing_page_size_witness :
  let r := getTransactions no_list_errors "1" (Some "2") (Some "10") fifteen_store in
  exists p, pagination_of r = Some p
            /\ (hasNextPage p = true -> Z.of_nat (length (rows_of r)) = limit p).
Proof.
  destruct (listing_page_size no_list_errors "1" (Some "2") (Some "10") fifteen_store
              eq_refl) as (p & Hp & _ & Hfull & _).
  exists p. split; [exact Hp | exact Hfull].
Defined.

Lemma listing_past_the_end_witness :
  let r := getTransactions no_list_errors "1" (Some "5") None fifteen_store in
  status r = 200 /\ rows_of r = [].
Proof.
  assert (H1 : 1 <= Js.or_default (Js.parseInt_param (Some "5")) 1)
    by (vm_compute; discriminate).
  assert (H2 : 1 <= Js.or_default (Js.parseInt_param (Some "5")) 10 <= 100)
    by (split; vm_compute; discriminate).
  assert (H3 : Js.ceil_div (countQuery "1" fifteen_store)
                 (Js.or_default (Js.parseInt_param (Some "5")) 10)
               < Js.or_default (Js.parseInt_param (Some "5")) 1)
    by (vm_compute; reflexivity).
  pose proof (listing_past_the_end no_list_errors "1" (Some "5") None fifteen_store
                eq_refl eq_refl H1 H2 H3)
    as (Hst & Hrows & _).
  split; [exact Hst | exact Hrows].
Defined.

Example page_5_of_fifteen :
  let r := getTransactions no_list_errors "1" (Some "5") None fifteen_store in
  rows_of r = []
  /\ (totalPages <$> pagination_of r) = Some 3
  /\ (hasNextPage <$> pagination_of r) = Some false.
Proof. cbn zeta. repeat split; vm_compute; reflexivity. Qed.

Lemma seeded_with_row_in_sequence : ids_in_sequence seeded_with_row.
Proof.
  split; [repeat constructor |].
  repeat constructor. cbn. discriminate.
Defined.

Lemma ids_stay_in_sequence_witness :
  ids_in_sequence (serve_all Js.digits_to_number six_requests seeded_with_row)
  /\ NoDup (map tx_id
              (transactions (serve_all Js.digits_to_number six_requests seeded_with_row))).
Proof.
  exact (ids_stay_in_sequence Js.digits_to_number six_requests seeded_with_row
           seeded_with_row_in_sequence).
Defined.

Lemma seeded_with_row_valid : rows_valid seeded_with_row.
Proof.
  repeat constructor. exists account_1. reflexivity.
Defined.

Lemma rows_stay_valid_witness :
  rows_valid (serve_all Js.digits_to_number six_requests seeded_with_row).
Proof.
  exact (rows_stay_valid Js.digits_to_number six_requests seeded_with_row
           seeded_with_row_valid).
Defined.

Lemma seeded_not_negative : no_negative_balance Js.digits_to_number seeded.
Proof.
  intros i a. unfold seeded, insertSampleData, sampleAccounts.
  cbn [accounts foldl id].
  intros H. apply lookup_insert_Some in H as [[_ <-] | [_ H]]; [reflexivity |].
  apply lookup_insert_Some in H as [[_ <-] | [_ H]]; [reflexivity |].
  rewrite lookup_empty in H. discriminate H.
Defined.

Lemma balances_stay_non_negative_witness :
  no_negative_balance Js.digits_to_number
    (serve_all Js.digits_to_number six_requests seeded).
Proof.
  exact (balances_stay_non_negative Js.digits_to_number six_requests seeded
           seeded_not_negative).
Defined.

Lemma post_error_leaves_store_witness :
  fst (postTransaction Js.digits_to_number (no_errors 0) "1" bogus_type seeded) = seeded.
Proof.
  apply (post_error_leaves_store Js.digits_to_number (no_errors 0) "1" bogus_type seeded
           (StoreError "Failed to create transaction."));
    [reflexivity | discriminate | reflexivity].
Defined.


Lemma insufficient_balance_agrees_witness :
  (exists e,
     snd (handleCreateTransaction Js.digits_to_number (no_errors 0) [account_1] "1"
            rent_6000 seeded) = Refused e
     /\ amount_error e = "Insufficient balance")
  <-> snd (postTransaction Js.digits_to_number (no_errors 0) "1" (body_of rent_6000) seeded)
      = [InsufficientFundsError].
Proof.
  exact (insufficient_balance_agrees Js.digits_to_number (no_errors 0) [account_1] "1"
           rent_6000 seeded account_1 5000 eq_refl eq_refl eq_refl
           ltac:(discriminate) ltac:(reflexivity) eq_refl).
Defined.

Example rent_6000_refused_by_form :
  snd (handleCreateTransaction Js.digits_to_number (no_errors 0) [account_1] "1"
         rent_6000 seeded)
  = Refused {| type_error := ""; amount_error := "Insufficient balance";
               description_error := "" |}.
Proof. vm_compute. reflexivity. Qed.

Lemma listing_of_unknown_account_witness :
  rows_of (getTransactions no_list_errors "9" (Some "1") None seeded_with_row) = [].
Proof.
  exact (proj1 (listing_of_unknown_account no_list_errors "9" (Some "1") None
                  seeded_with_row seeded_with_row_valid eq_refl eq_refl)).
Defined.
